(** * Life in Weeks: the week model, the grid layout and the submit handler

    A shallow embedding of [script.js].  The script is one closure over a few
    DOM elements; its functions are [calculateWeeks], [renderWeeksGrid],
    [updateSummary], [applyGridAnimation], [clearError], [showError] and the
    anonymous handler of the form's [submit] event, called [onSubmit] here.

    The DOM elements and the wall clock are the fields of a record [World]
    that every function receives and returns. *)

From Stdlib Require Import ZArith QArith String DecimalString Bool List Lia.
From Stdlib Require Import Floats.SpecFloat.
Import ListNotations.

#[local] Open Scope Z_scope.

(** ** Number values

    Every quantity of the script is an ECMAScript Number, a binary64 float.
    Those that matter here hold integers (time values in milliseconds, week
    counts, loop indices) and are modelled in [Z].  Comparisons, [Math.max]
    and [Math.min] are exact on Numbers.  A subtraction is exact while its
    result has at most 53 significant bits; beyond that it is rounded to the
    nearest Number, ties to the even significand, which [round_to_double]
    writes out for integers (overflow to Infinity, above 2^1024, is out of
    reach of the values handled here).

    The two quotients of [calculateWeeks] are Numbers as well.  The floor of
    [msDiff / 604800000] is read as the floor division in [Z], and
    [yearsLived] as the exact rational [msDiff / 31557600000]: the rounding
    of the quotient does not move it across an integer, nor across the
    bounds 0.1, 90 and 110 that the handler tests it against.  The module
    [Binary64] below evaluates the same arithmetic in binary64, and the
    examples that follow the definitions compare the two readings. *)

Definition MAX_SAFE : Z := 2 ^ 53.

Definition round_to_double (z : Z) : Z :=
  let m := Z.abs z in
  if m <=? MAX_SAFE then z
  else
    let sh := Z.log2 m - 52 in
    let q := m / 2 ^ sh in
    let r := m mod 2 ^ sh in
    let half := 2 ^ (sh - 1) in
    let q' := if r <? half then q
              else if half <? r then q + 1
              else if Z.even q then q else q + 1 in
    Z.sgn z * (q' * 2 ^ sh).

(** [a - b] on two integer-valued Numbers. *)
Definition num_sub (a b : Z) : Z := round_to_double (a - b).

(** A Date is modelled by its time value, the milliseconds since the epoch.
    The time value of a valid Date is an integer of magnitude at most
    8.64e15; the handler lets no invalid Date (time value NaN) through to
    [calculateWeeks], and [new Date()] is always valid. *)
Definition Date : Type := Z.

Definition MAX_TIME : Z := 8640000000000000.

Definition valid_time (t : Date) : Prop := - MAX_TIME <= t <= MAX_TIME.

(** ** The binary64 evaluation of the script's arithmetic

    The operations of [SpecFloat] at precision 53, used to evaluate the
    arithmetic of [calculateWeeks] and of the handler's tests exactly as an
    engine does, at concrete inputs. *)
Module Binary64.

Definition prec : Z := 53.
Definition emax : Z := 1024.

Definition of_Z (z : Z) : spec_float := binary_normalize prec emax z 0 false.

Definition sub : spec_float -> spec_float -> spec_float := SFsub prec emax.
Definition mul : spec_float -> spec_float -> spec_float := SFmul prec emax.
Definition div : spec_float -> spec_float -> spec_float := SFdiv prec emax.

(** [Math.floor], [None] for NaN and the infinities. *)
Definition floor (x : spec_float) : option Z :=
  match x with
  | S754_zero _ => Some 0
  | S754_finite s m e =>
      let v := cond_Zopp s (Z.pos m) in
      Some (if 0 <=? e then v * 2 ^ e else v / 2 ^ (- e))
  | _ => None
  end.

(** The integer a Number holds, when it holds one. *)
Definition to_Z (x : spec_float) : option Z :=
  match x with
  | S754_zero _ => Some 0
  | S754_finite s m e =>
      let v := cond_Zopp s (Z.pos m) in
      if 0 <=? e then Some (v * 2 ^ e)
      else if v mod 2 ^ (- e) =? 0 then Some (v / 2 ^ (- e)) else None
  | _ => None
  end.

(** [1000 * 60 * 60 * 24 * 7] *)
Definition msPerWeek : spec_float :=
  mul (mul (mul (mul (of_Z 1000) (of_Z 60)) (of_Z 60)) (of_Z 24)) (of_Z 7).

(** [1000 * 60 * 60 * 24 * 365.25]; 365.25 is 1461 / 4. *)
Definition msPerYear : spec_float :=
  mul (mul (mul (mul (of_Z 1000) (of_Z 60)) (of_Z 60)) (of_Z 24))
      (binary_normalize prec emax 1461 (-2) false).

(** The literal [0.1]: the Number nearest to one tenth. *)
Definition tenth : spec_float := div (of_Z 1) (of_Z 10).

Definition msDiff (now dob : Z) : spec_float := sub (of_Z now) (of_Z dob).

Definition weeksLived (now dob : Z) : option Z :=
  floor (div (msDiff now dob) msPerWeek).

Definition yearsLived (now dob : Z) : spec_float :=
  div (msDiff now dob) msPerYear.

End Binary64.

(** ** The constants of the closure *)

Definition AVERAGE_LIFESPAN_YEARS : Z := 90.
Definition WEEKS_PER_YEAR : Z := 52.
Definition MAX_REASONABLE_AGE_YEARS : Z := 110.

(** [1000 * 60 * 60 * 24 * 7] *)
Definition MS_PER_WEEK : Z := 1000 * 60 * 60 * 24 * 7.

(** [1000 * 60 * 60 * 24 * 365.25], an integer: 31557600000. *)
Definition MS_PER_YEAR : Q := inject_Z (1000 * 60 * 60 * 24) * (36525 # 100).

(** [x < y] on rationals, as a test. *)
Definition Qltb (x y : Q) : bool := (Qnum x * QDen y <? Qnum y * QDen x)%Z.

(** ** The page: DOM elements, clock and console *)

Inductive Cell : Type := past | future.

(** A [div.year-row]; [decade] is the class [year-row--decade]. *)
Record Row : Type := mkRow { decade : bool; cells : list Cell }.

(** The element [#dob-error]: its text and whether it carries the class
    [form-feedback--error]. *)
Record Feedback : Type := mkFeedback { textContent : string; error_class : bool }.

Inductive ConsoleEntry : Type :=
| log_text (label value : string)
| log_number (label : string) (value : Z)
| warn (message : string).

(** The elements looked up when the script starts.  [#dob-form], [#dob] and
    [#weeks-grid] exist (the script returns at once otherwise); the three
    statistics and [#dob-error] may be missing, which is [None]. *)
Record World : Type := mkWorld {
  clock : Date;                      (* what [new Date()] reads *)
  dobInput_value : string;           (* [dobInput.value] *)
  gridEl : list Row;                 (* the children of [#weeks-grid] *)
  gridEl_is_fresh : bool;            (* its class [is-fresh] *)
  ageEl : option string;
  livedEl : option string;
  remainingEl : option string;
  dobErrorEl : option Feedback;
  console : list ConsoleEntry
}.

Definition set_gridEl (g : list Row) (w : World) : World :=
  mkWorld (clock w) (dobInput_value w) g (gridEl_is_fresh w)
          (ageEl w) (livedEl w) (remainingEl w) (dobErrorEl w) (console w).

Definition set_is_fresh (b : bool) (w : World) : World :=
  mkWorld (clock w) (dobInput_value w) (gridEl w) b
          (ageEl w) (livedEl w) (remainingEl w) (dobErrorEl w) (console w).

Definition set_ageEl (s : option string) (w : World) : World :=
  mkWorld (clock w) (dobInput_value w) (gridEl w) (gridEl_is_fresh w)
          s (livedEl w) (remainingEl w) (dobErrorEl w) (console w).

Definition set_livedEl (s : option string) (w : World) : World :=
  mkWorld (clock w) (dobInput_value w) (gridEl w) (gridEl_is_fresh w)
          (ageEl w) s (remainingEl w) (dobErrorEl w) (console w).

Definition set_remainingEl (s : option string) (w : World) : World :=
  mkWorld (clock w) (dobInput_value w) (gridEl w) (gridEl_is_fresh w)
          (ageEl w) (livedEl w) s (dobErrorEl w) (console w).

Definition set_dobErrorEl (f : option Feedback) (w : World) : World :=
  mkWorld (clock w) (dobInput_value w) (gridEl w) (gridEl_is_fresh w)
          (ageEl w) (livedEl w) (remainingEl w) f (console w).

Definition console_push (e : ConsoleEntry) (w : World) : World :=
  mkWorld (clock w) (dobInput_value w) (gridEl w) (gridEl_is_fresh w)
          (ageEl w) (livedEl w) (remainingEl w) (dobErrorEl w) (console w ++ [e]).

(** ** calculateWeeks *)

Record WeekModelResult : Type := mkResult {
  totalWeeks : Z;
  weeksLived : Z;
  yearsLived : Q
}.

(** A thrown [Error], with its message. *)
Record Error : Type := mkError { message : string }.

Definition FutureDateOfBirth : Error :=
  mkError "Date of birth cannot be in the future.".

(** What a call gives back: a value or a thrown error. *)
Inductive Outcome (A : Type) : Type :=
| Returns (a : A)
| Throws (e : Error).
Arguments Returns {A} a.
Arguments Throws {A} e.

(** [calculateWeeks(dob)].  Its one parameter is [dob]; [now] is read from
    the clock.  The world comes back with the outcome. *)
Definition calculateWeeks (dob : Date) (w : World) : Outcome WeekModelResult * World :=
  let now := clock w in
  if now <? dob then (Throws FutureDateOfBirth, w)
  else
    let totalWeeks := AVERAGE_LIFESPAN_YEARS * WEEKS_PER_YEAR in
    let msDiff := num_sub now dob in
    let weeksLived := msDiff / MS_PER_WEEK in
    let yearsLived := (inject_Z msDiff / MS_PER_YEAR)%Q in
    (Returns (mkResult totalWeeks weeksLived yearsLived), w).

(** ** renderWeeksGrid *)

(** The inner [for]: [n] iterations are left, [row] holds the cells appended
    so far.  Gives the row's cells and [globalIndex] after the loop. *)
Fixpoint weekLoop (n : nat) (globalIndex safeTotal safeLived : Z)
    (row : list Cell) : list Cell * Z :=
  match n with
  | O => (row, globalIndex)
  | S n' =>
      if globalIndex >=? safeTotal then (row, globalIndex)
      else
        let cell := if globalIndex <? safeLived then past else future in
        weekLoop n' (globalIndex + 1) safeTotal safeLived (row ++ [cell])
  end.

(** The outer [for]: [n] iterations are left, [grid] holds the rows appended
    to [gridEl] so far. *)
Fixpoint yearLoop (n : nat) (year globalIndex safeTotal safeLived : Z)
    (grid : list Row) : list Row :=
  match n with
  | O => grid
  | S n' =>
      let isDecade := (0 <? year) && (Z.rem year 10 =? 0) in
      let '(rowCells, globalIndex') :=
        weekLoop (Z.to_nat WEEKS_PER_YEAR) globalIndex safeTotal safeLived [] in
      let grid' := grid ++ [mkRow isDecade rowCells] in
      if globalIndex' >=? safeTotal then grid'
      else yearLoop n' (year + 1) globalIndex' safeTotal safeLived grid'
  end.

(** The rows [renderWeeksGrid(totalWeeks, weeksLived)] leaves in [gridEl],
    which it empties first. *)
Definition layout (totalWeeks weeksLived : Z) : list Row :=
  let safeTotal := Z.max 0 totalWeeks in
  let safeLived := Z.min (Z.max 0 weeksLived) safeTotal in
  let years := AVERAGE_LIFESPAN_YEARS in
  yearLoop (Z.to_nat years) 0 0 safeTotal safeLived [].

Definition renderWeeksGrid (totalWeeks weeksLived : Z) (w : World) : World :=
  set_gridEl (layout totalWeeks weeksLived) w.

(** ** applyGridAnimation, clearError, showError *)

Definition applyGridAnimation (w : World) : World :=
  set_is_fresh true (set_is_fresh false w).

Definition clearError (w : World) : World :=
  match dobErrorEl w with
  | None => w
  | Some _ => set_dobErrorEl (Some (mkFeedback "" false)) w
  end.

Definition showError (msg : string) (w : World) : World :=
  match dobErrorEl w with
  | None => w
  | Some _ => set_dobErrorEl (Some (mkFeedback msg true)) w
  end.

(** ** updateSummary and the submit handler

    The built-ins the script calls are parameters: the Date parser behind
    [new Date(rawValue)] ([None] for an invalid Date), [toLocaleString],
    [toFixed(1)] and [toISOString().slice(0, 10)]. *)
Section Script.

Variable parseDate : string -> option Date.
Variable toLocaleString : Z -> string.
Variable toFixed1 : Q -> string.
Variable toISODate : Date -> string.

Definition updateSummary (r : WeekModelResult) (w : World) : World :=
  let w1 := match ageEl w with
            | Some _ => set_ageEl (Some (toFixed1 (yearsLived r))) w
            | None => w
            end in
  let w2 := match livedEl w1 with
            | Some _ => set_livedEl (Some (toLocaleString (weeksLived r))) w1
            | None => w1
            end in
  match remainingEl w2 with
  | Some _ =>
      let remaining := Z.max 0 (num_sub (totalWeeks r) (weeksLived r)) in
      set_remainingEl (Some (toLocaleString remaining)) w2
  | None => w2
  end.

(** The tail of the [try] block, after the age tests. *)
Definition render (dob : Date) (r : WeekModelResult) (w : World) : World :=
  let w1 := console_push (log_text "DOB:" (toISODate dob)) w in
  let w2 := console_push (log_number "Total weeks (90 years):" (totalWeeks r)) w1 in
  let w3 := console_push (log_number "Weeks lived so far:" (weeksLived r)) w2 in
  let w4 := renderWeeksGrid (totalWeeks r) (weeksLived r) w3 in
  let w5 := updateSummary r w4 in
  applyGridAnimation w5.

Definition onSubmit (w : World) : World :=
  let rawValue := dobInput_value w in
  if String.eqb rawValue "" then showError "Please enter your date of birth." w
  else
    match parseDate rawValue with
    | None => showError "That doesn't look like a valid date. Please try again." w
    | Some dob =>
        match calculateWeeks dob w with
        | (Throws error, w') => console_push (warn (message error)) w'
        | (Returns r, w') =>
            if Qltb (yearsLived r) (1 # 10) then
              render dob r
                (showError "Welcome to the world. This chart shows your journey ahead." w')
            else if Qltb (inject_Z MAX_REASONABLE_AGE_YEARS) (yearsLived r) then
              showError "That date is very far in the past. Please check your year." w'
            else if Qltb (inject_Z AVERAGE_LIFESPAN_YEARS) (yearsLived r) then
              render dob r
                (showError "You've passed the 90-year mark in this model. Remaining weeks are shown as zero." w')
            else
              render dob r (clearError w')
        end
    end.

End Script.


(** ** The grid read as lists

    The two loops append to a row and to the grid; [cellsFrom] and [rowsFrom]
    give the same cells and rows front to back.  [allCells] lists the cells
    of a grid in row-major order, so that a cell's position in it is its
    global index. *)

Definition tagAt (safeLived i : Z) : Cell :=
  if i <? safeLived then past else future.

Fixpoint cellsFrom (n : nat) (globalIndex safeTotal safeLived : Z) : list Cell :=
  match n with
  | O => []
  | S n' =>
      if globalIndex >=? safeTotal then []
      else tagAt safeLived globalIndex
           :: cellsFrom n' (globalIndex + 1) safeTotal safeLived
  end.

Fixpoint rowsFrom (n : nat) (year globalIndex safeTotal safeLived : Z) : list Row :=
  match n with
  | O => []
  | S n' =>
      let rowCells :=
        cellsFrom (Z.to_nat WEEKS_PER_YEAR) globalIndex safeTotal safeLived in
      let globalIndex' := globalIndex + Z.of_nat (length rowCells) in
      mkRow ((0 <? year) && (Z.rem year 10 =? 0)) rowCells
      :: (if globalIndex' >=? safeTotal then []
          else rowsFrom n' (year + 1) globalIndex' safeTotal safeLived)
  end.

Definition allCells (grid : list Row) : list Cell := concat (map cells grid).

Definition cellCount (grid : list Row) : Z := Z.of_nat (length (allCells grid)).

(** [clamp(x, lo, hi)] as the specification uses it. *)
Definition clamp (x lo hi : Z) : Z :=
  if x <? lo then lo else if hi <? x then hi else x.

(** The world a page starts from, for a given clock reading and input. *)
Definition blankWorld (now : Date) (input : string) : World :=
  mkWorld now input [] false (Some EmptyString) (Some EmptyString)
          (Some EmptyString) (Some (mkFeedback EmptyString false)) [].

(** A concrete host, to run the handler: a parser that reads every input as
    the one date [t], and [toLocaleString] as plain decimal digits. *)
Definition parseAs (t : Date) : string -> option Date := fun _ => Some t.

Definition decimalString (z : Z) : string := NilZero.string_of_int (Z.to_int z).

Definition noText {A : Type} : A -> string := fun _ => EmptyString.

(** What a visitor sees of a world: the grid and its class, the three
    statistics and the message; the console, the clock and the input are left
    out. *)
Definition page (w : World) :
    list Row * bool * option string * option string * option string
    * option Feedback :=
  (gridEl w, gridEl_is_fresh w, ageEl w, livedEl w, remainingEl w, dobErrorEl w).

(** The age bounds of the handler in elapsed milliseconds: 0.1, 90 and 110
    years of 31557600000 ms. *)
Definition MS_NEWBORN : Z := 3155760000.
Definition MS_LIFESPAN : Z := 2840184000000.
Definition MS_REASONABLE : Z := 3471336000000.

(** ** The start of the script

    What the closure does when the page loads, before any event: the lookup
    of the elements, the guard on the three it needs, the reflection switch
    and the copyright year.  [Document] holds what that code reads and
    writes: which of the needed elements exist, the switch's [checked], the
    reflection text's [style.display], the copyright element's text, and
    which listeners are registered. *)
Record Document : Type := mkDocument {
  has_form : bool;
  has_dobInput : bool;
  has_gridEl : bool;
  reflectionToggle : option bool;
  reflectionText : option string;
  copyrightYearEl : option string;
  change_listener : bool;
  submit_listener : bool
}.

Definition displayFor (checked : bool) : string :=
  if checked then "block"%string else "none"%string.

Definition set_reflectionText (s : option string) (d : Document) : Document :=
  mkDocument (has_form d) (has_dobInput d) (has_gridEl d) (reflectionToggle d)
             s (copyrightYearEl d) (change_listener d) (submit_listener d).

Definition set_checked (b : bool) (d : Document) : Document :=
  mkDocument (has_form d) (has_dobInput d) (has_gridEl d)
             (match reflectionToggle d with Some _ => Some b | None => None end)
             (reflectionText d) (copyrightYearEl d)
             (change_listener d) (submit_listener d).

Definition set_copyright (s : option string) (d : Document) : Document :=
  mkDocument (has_form d) (has_dobInput d) (has_gridEl d) (reflectionToggle d)
             (reflectionText d) s (change_listener d) (submit_listener d).

Definition add_change_listener (d : Document) : Document :=
  mkDocument (has_form d) (has_dobInput d) (has_gridEl d) (reflectionToggle d)
             (reflectionText d) (copyrightYearEl d) true (submit_listener d).

Definition add_submit_listener (d : Document) : Document :=
  mkDocument (has_form d) (has_dobInput d) (has_gridEl d) (reflectionToggle d)
             (reflectionText d) (copyrightYearEl d) (change_listener d) true.

(** The listener of the switch's [change] event. *)
Definition onToggleChange (d : Document) : Document :=
  match reflectionToggle d, reflectionText d with
  | Some checked, Some _ => set_reflectionText (Some (displayFor checked)) d
  | _, _ => d
  end.

(** The body of the closure up to the registration of the submit handler.
    [currentYear] is [new Date().getFullYear()]. *)
Definition start (currentYear : Z) (d : Document) : Document :=
  if negb (has_form d) || negb (has_dobInput d) || negb (has_gridEl d) then d
  else
    let d1 := match reflectionToggle d, reflectionText d with
              | Some checked, Some _ =>
                  set_reflectionText (Some (displayFor checked))
                                     (add_change_listener d)
              | _, _ => d
              end in
    let d2 := match copyrightYearEl d1 with
              | Some _ =>
                  set_copyright
                    (Some ("© " ++ decimalString currentYear ++ " ")%string) d1
              | None => d1
              end in
    add_submit_listener d2.

(** The visitor sets the switch to [b]; the browser then fires [change],
    which runs the listener if one is registered. *)
Definition userSwitches (b : bool) (d : Document) : Document :=
  let d' := set_checked b d in
  if change_listener d' then onToggleChange d' else d'.

(** ** The handler as a decision and an action

    A second reading of [onSubmit], to reason about it: what it decides from
    the input and the clock, and what it then does to the page. *)
Inductive Decision : Type :=
| message_only (msg : string)
| warning_only (msg : string)
| render_after_notice (dob : Date) (r : WeekModelResult) (msg : string)
| render_after_clear (dob : Date) (r : WeekModelResult).

Section Decisions.

Variable parseDate : string -> option Date.
Variable toLocaleString : Z -> string.
Variable toFixed1 : Q -> string.
Variable toISODate : Date -> string.

Definition decision (w : World) : Decision :=
  if String.eqb (dobInput_value w) "" then
    message_only "Please enter your date of birth."
  else
    match parseDate (dobInput_value w) with
    | None =>
        message_only "That doesn't look like a valid date. Please try again."
    | Some dob =>
        match fst (calculateWeeks dob w) with
        | Throws error => warning_only (message error)
        | Returns r =>
            if Qltb (yearsLived r) (1 # 10) then
              render_after_notice dob r
                "Welcome to the world. This chart shows your journey ahead."
            else if Qltb (inject_Z MAX_REASONABLE_AGE_YEARS) (yearsLived r) then
              message_only
                "That date is very far in the past. Please check your year."
            else if Qltb (inject_Z AVERAGE_LIFESPAN_YEARS) (yearsLived r) then
              render_after_notice dob r
                "You've passed the 90-year mark in this model. Remaining weeks are shown as zero."
            else render_after_clear dob r
        end
    end.

Definition act (d : Decision) (w : World) : World :=
  match d with
  | message_only msg => showError msg w
  | warning_only msg => console_push (warn msg) w
  | render_after_notice dob r msg =>
      render toLocaleString toFixed1 toISODate dob r (showError msg w)
  | render_after_clear dob r =>
      render toLocaleString toFixed1 toISODate dob r (clearError w)
  end.

End Decisions.

(** * Properties *)

(** ** Number values *)

Lemma round_to_double_exact (z : Z) :
  Z.abs z <= MAX_SAFE -> round_to_double z = z.
Proof.
  intros H. unfold round_to_double.
  destruct (Z.leb_spec (Z.abs z) MAX_SAFE) as [_ | Hgt]; [reflexivity | lia].
Qed.

Lemma round_to_double_sign (z : Z) :
  (0 <= z -> 0 <= round_to_double z) /\ (z <= 0 -> round_to_double z <= 0).
Proof.
  unfold round_to_double.
  destruct (Z.leb_spec (Z.abs z) MAX_SAFE) as [_ | Hgt]; [lia |].
  set (m := Z.abs z) in *. set (sh := Z.log2 m - 52).
  assert (Hpow : 0 <= 2 ^ sh) by apply Z.pow_nonneg, Z.lt_le_incl, Z.lt_0_2.
  assert (Hq : 0 <= m / 2 ^ sh).
  { destruct (Z.eq_dec (2 ^ sh) 0) as [E | NE].
    - rewrite E, Z.div_0_r. lia.
    - apply Z.div_pos; lia. }
  set (q' := if m mod 2 ^ sh <? 2 ^ (sh - 1) then m / 2 ^ sh
             else if 2 ^ (sh - 1) <? m mod 2 ^ sh then m / 2 ^ sh + 1
             else if Z.even (m / 2 ^ sh) then m / 2 ^ sh else m / 2 ^ sh + 1).
  assert (Hq' : 0 <= q').
  { unfold q'.
    destruct (_ <? _); [lia |]. destruct (_ <? _); [lia |].
    destruct (Z.even _); lia. }
  assert (Hprod : 0 <= q' * 2 ^ sh) by (apply Z.mul_nonneg_nonneg; lia).
  split; intros Hz.
  - destruct (Z.sgn_spec z) as [[? E] | [[? E] | [? E]]]; rewrite E; lia.
  - destruct (Z.sgn_spec z) as [[? E] | [[? E] | [? E]]]; rewrite E; lia.
Qed.

Lemma num_sub_exact (a b : Z) :
  Z.abs (a - b) <= MAX_SAFE -> num_sub a b = a - b.
Proof. apply round_to_double_exact. Qed.

Lemma Qltb_lt (x y : Q) : Qltb x y = true <-> (x < y)%Q.
Proof. unfold Qltb, Qlt. apply Z.ltb_lt. Qed.

(** *** The integer and rational reading against binary64

    At sample inputs, among them the edges of the exact range and of the age
    tests, the reading in [Z] and [Q] gives what the binary64 operations
    give. *)

Example round_to_double_is_binary64 :
  let samples :=
    [0; 1; -1; 4680; 2 ^ 53 - 1; 2 ^ 53; 2 ^ 53 + 1; 2 ^ 53 + 2; 2 ^ 53 + 3;
     - (2 ^ 53) - 1; 2 ^ 54 - 1; 2 ^ 54 + 2; 2 ^ 54 + 6; - (2 ^ 54) - 7;
     9071999999999999; 17279999999999997; 17280000000000000;
     - (2 ^ 60) - 7777777; 2 ^ 80 + 2 ^ 27; 2 ^ 80 + 2 ^ 27 + 1] in
  map (fun z => Binary64.to_Z (Binary64.of_Z z)) samples =
  map (fun z => Some (round_to_double z)) samples.
Proof. vm_compute. reflexivity. Qed.

Example constants_are_binary64 :
  Binary64.to_Z Binary64.msPerWeek = Some MS_PER_WEEK /\
  Binary64.to_Z Binary64.msPerYear = Some 31557600000 /\
  (MS_PER_YEAR == inject_Z 31557600000)%Q.
Proof. repeat split. Qed.

Example weeksLived_is_binary64 :
  let samples :=
    [(1893456000000, 946684800000); (1893456000000, 1893369600000);
     (1893456000000, 1893456000000); (1893456000000, -8640000000000000);
     (604800000 * 14000000 - 1, 0); (604800000 * 14000000, 0);
     (2 ^ 53, 0); (2 ^ 53 - 1, -1); (2 ^ 53, -1);
     (8640000000000000, -431999999999998);
     (8640000000000000, -431999999999999);
     (8640000000000000, -432000000000000);
     (8640000000000000, -432000000000001);
     (8640000000000000, -8640000000000000)] in
  map (fun p => Binary64.weeksLived (fst p) (snd p)) samples =
  map (fun p => Some (num_sub (fst p) (snd p) / MS_PER_WEEK)) samples.
Proof. vm_compute. reflexivity. Qed.

Example age_tests_are_binary64 :
  let samples :=
    [0; 86400000; 3155759999; 3155760000; 3155760001; 946771200000;
     2840183999999; 2840184000000; 2840184000001;
     3471335999999; 3471336000000; 3471336000001; 3786912000000;
     9007199254740992; 17280000000000000] in
  map (fun ms =>
         let years := Binary64.div (Binary64.of_Z ms) Binary64.msPerYear in
         (SFltb years Binary64.tenth,
          SFltb (Binary64.of_Z MAX_REASONABLE_AGE_YEARS) years,
          SFltb (Binary64.of_Z AVERAGE_LIFESPAN_YEARS) years)) samples =
  map (fun ms =>
         let years := (inject_Z ms / MS_PER_YEAR)%Q in
         (Qltb years (1 # 10),
          Qltb (inject_Z MAX_REASONABLE_AGE_YEARS) years,
          Qltb (inject_Z AVERAGE_LIFESPAN_YEARS) years)) samples.
Proof. vm_compute. reflexivity. Qed.

(** ** The loops against their list reading *)

Lemma weekLoop_cellsFrom (n : nat) :
  forall globalIndex safeTotal safeLived row,
    weekLoop n globalIndex safeTotal safeLived row =
    (row ++ cellsFrom n globalIndex safeTotal safeLived,
     globalIndex + Z.of_nat (length (cellsFrom n globalIndex safeTotal safeLived))).
Proof.
  induction n as [| n IH]; intros gi N L row; simpl.
  - rewrite app_nil_r. f_equal. lia.
  - destruct (gi >=? N).
    + rewrite app_nil_r. simpl. f_equal. lia.
    + rewrite IH. unfold tagAt. rewrite <- app_assoc. simpl. f_equal. lia.
Qed.

Lemma yearLoop_rowsFrom (n : nat) :
  forall year globalIndex safeTotal safeLived grid,
    yearLoop n year globalIndex safeTotal safeLived grid =
    grid ++ rowsFrom n year globalIndex safeTotal safeLived.
Proof.
  induction n as [| n IH]; intros y gi N L grid.
  - simpl. now rewrite app_nil_r.
  - cbn [yearLoop rowsFrom]. rewrite weekLoop_cellsFrom. cbn [app].
    destruct (_ >=? N).
    + reflexivity.
    + rewrite IH, <- app_assoc. reflexivity.
Qed.

Lemma layout_rowsFrom (totalWeeks weeksLived : Z) :
  layout totalWeeks weeksLived =
  rowsFrom (Z.to_nat AVERAGE_LIFESPAN_YEARS) 0 0 (Z.max 0 totalWeeks)
           (Z.min (Z.max 0 weeksLived) (Z.max 0 totalWeeks)).
Proof. unfold layout. now rewrite yearLoop_rowsFrom. Qed.

(** ** Counting and tagging the cells *)

Lemma cellsFrom_length (n : nat) :
  forall globalIndex safeTotal safeLived,
    Z.of_nat (length (cellsFrom n globalIndex safeTotal safeLived)) =
    Z.min (Z.of_nat n) (Z.max 0 (safeTotal - globalIndex)).
Proof.
  induction n as [| n IH]; intros gi N L.
  - simpl. lia.
  - cbn [cellsFrom].
    destruct (Z.geb_spec gi N) as [Hge | Hlt].
    + simpl. lia.
    + cbn [length]. rewrite Nat2Z.inj_succ, IH. lia.
Qed.

Lemma cellsFrom_nth (n : nat) :
  forall globalIndex safeTotal safeLived i c,
    nth_error (cellsFrom n globalIndex safeTotal safeLived) i = Some c ->
    c = tagAt safeLived (globalIndex + Z.of_nat i).
Proof.
  induction n as [| n IH]; intros gi N L i c H.
  - destruct i; discriminate.
  - cbn [cellsFrom] in H. destruct (gi >=? N).
    + destruct i; discriminate.
    + destruct i as [| i]; cbn [nth_error] in H.
      * injection H as <-. f_equal. lia.
      * apply IH in H. subst c. f_equal. lia.
Qed.

Lemma allCells_cons (r : Row) (grid : list Row) :
  allCells (r :: grid) = cells r ++ allCells grid.
Proof. reflexivity. Qed.

Lemma cellCount_cons (r : Row) (grid : list Row) :
  cellCount (r :: grid) = Z.of_nat (length (cells r)) + cellCount grid.
Proof. unfold cellCount. rewrite allCells_cons, length_app. lia. Qed.

Lemma rowsFrom_cellCount (n : nat) :
  forall year globalIndex safeTotal safeLived,
    cellCount (rowsFrom n year globalIndex safeTotal safeLived) =
    Z.min (WEEKS_PER_YEAR * Z.of_nat n) (Z.max 0 (safeTotal - globalIndex)).
Proof.
  unfold WEEKS_PER_YEAR.
  induction n as [| n IH]; intros y gi N L.
  - cbn [rowsFrom]. change (cellCount []) with 0. lia.
  - cbn [rowsFrom]. rewrite cellCount_cons. cbn [cells].
    pose proof (cellsFrom_length (Z.to_nat WEEKS_PER_YEAR) gi N L) as Hlen.
    change (Z.of_nat (Z.to_nat WEEKS_PER_YEAR)) with 52 in Hlen.
    destruct (Z.geb_spec (gi + Z.of_nat (length
                (cellsFrom (Z.to_nat WEEKS_PER_YEAR) gi N L))) N) as [Hge | Hlt].
    + change (cellCount []) with 0. lia.
    + rewrite IH. lia.
Qed.

Lemma rowsFrom_nth (n : nat) :
  forall year globalIndex safeTotal safeLived i c,
    nth_error (allCells (rowsFrom n year globalIndex safeTotal safeLived)) i = Some c ->
    c = tagAt safeLived (globalIndex + Z.of_nat i).
Proof.
  induction n as [| n IH]; intros y gi N L i c H.
  - destruct i; discriminate.
  - cbn [rowsFrom] in H. rewrite allCells_cons in H. cbn [cells] in H.
    set (row := cellsFrom (Z.to_nat WEEKS_PER_YEAR) gi N L) in *.
    destruct (Nat.lt_ge_cases i (length row)) as [Hi | Hi].
    + rewrite nth_error_app1 in H by exact Hi.
      now apply cellsFrom_nth in H.
    + rewrite nth_error_app2 in H by exact Hi.
      destruct (_ >=? N).
      * destruct (i - length row)%nat; discriminate.
      * apply IH in H. subst c. f_equal. lia.
Qed.

(** ** The shape of the rows *)

Lemma rowsFrom_length (n : nat) :
  forall year globalIndex safeTotal safeLived,
    Z.of_nat (length (rowsFrom (S n) year globalIndex safeTotal safeLived)) =
    Z.max 1 (Z.min (Z.of_nat (S n))
                   ((Z.max 0 (safeTotal - globalIndex) + 51) / WEEKS_PER_YEAR)).
Proof.
  induction n as [| n IH]; intros y gi N L.
  - cbn [rowsFrom]. destruct (_ >=? N); cbn [length]; lia.
  - remember (S n) as m eqn:Em. cbn [rowsFrom].
    pose proof (cellsFrom_length (Z.to_nat WEEKS_PER_YEAR) gi N L) as Hlen.
    set (row := cellsFrom (Z.to_nat WEEKS_PER_YEAR) gi N L) in *.
    change (Z.of_nat (Z.to_nat WEEKS_PER_YEAR)) with 52 in Hlen.
    destruct (Z.geb_spec (gi + Z.of_nat (length row)) N) as [Hge | Hlt].
    + cbn [length]. unfold WEEKS_PER_YEAR.
      Z.to_euclidean_division_equations. lia.
    + cbn [length]. rewrite Nat2Z.inj_succ. subst m. rewrite IH.
      rewrite !Nat2Z.inj_succ.
      assert (Hrow : Z.of_nat (length row) = 52) by lia.
      rewrite Hrow. unfold WEEKS_PER_YEAR.
      replace (Z.max 0 (N - gi)) with (Z.max 0 (N - (gi + 52)) + 52) by lia.
      Z.to_euclidean_division_equations. lia.
Qed.

Lemma rowsFrom_rows (n : nat) :
  forall year globalIndex safeTotal safeLived k r,
    nth_error (rowsFrom n year globalIndex safeTotal safeLived) k = Some r ->
    Z.of_nat (length (cells r)) <= WEEKS_PER_YEAR /\
    ((S k < length (rowsFrom n year globalIndex safeTotal safeLived))%nat ->
     Z.of_nat (length (cells r)) = WEEKS_PER_YEAR).
Proof.
  induction n as [| n IH]; intros y gi N L k r H.
  - destruct k; discriminate.
  - cbn [rowsFrom] in H |- *.
    pose proof (cellsFrom_length (Z.to_nat WEEKS_PER_YEAR) gi N L) as Hlen.
    set (row := cellsFrom (Z.to_nat WEEKS_PER_YEAR) gi N L) in *.
    change (Z.of_nat (Z.to_nat WEEKS_PER_YEAR)) with WEEKS_PER_YEAR in Hlen.
    clearbody row.
    destruct (Z.geb_spec (gi + Z.of_nat (length row)) N) as [Hge | Hlt].
    + destruct k as [| k]; cbn [nth_error] in H.
      * injection H as E. rewrite <- E. cbn [cells length].
        unfold WEEKS_PER_YEAR in *. lia.
      * destruct k; discriminate.
    + destruct k as [| k]; cbn [nth_error] in H.
      * injection H as E. rewrite <- E. cbn [cells].
        unfold WEEKS_PER_YEAR in *. lia.
      * apply IH in H. destruct H as [H1 H2]. split; [exact H1 |].
        intros Hk. apply H2. cbn [length] in Hk. lia.
Qed.

Lemma layout_cellCount (totalWeeks weeksLived : Z) :
  cellCount (layout totalWeeks weeksLived) =
  Z.min (Z.max 0 totalWeeks) (AVERAGE_LIFESPAN_YEARS * WEEKS_PER_YEAR).
Proof.
  rewrite layout_rowsFrom, rowsFrom_cellCount.
  unfold AVERAGE_LIFESPAN_YEARS, WEEKS_PER_YEAR.
  change (Z.of_nat (Z.to_nat 90)) with 90. lia.
Qed.

Lemma layout_length (totalWeeks weeksLived : Z) :
  Z.of_nat (length (layout totalWeeks weeksLived)) =
  Z.max 1 (Z.min AVERAGE_LIFESPAN_YEARS
                 ((Z.max 0 totalWeeks + 51) / WEEKS_PER_YEAR)).
Proof.
  rewrite layout_rowsFrom.
  change (Z.to_nat AVERAGE_LIFESPAN_YEARS) with (S 89).
  rewrite rowsFrom_length.
  change (Z.of_nat 90) with AVERAGE_LIFESPAN_YEARS.
  replace (Z.max 0 (Z.max 0 totalWeeks - 0)) with (Z.max 0 totalWeeks) by lia.
  reflexivity.
Qed.

(** ** The grid layout: claims *)

(** C2.  Whatever the two integers, negative [weeksLived] and [weeksLived]
    above [totalWeeks] included, a cell that [layout totalWeeks weeksLived]
    emits is tagged [past] exactly when its zero-based global row-major index
    is strictly below [clamp weeksLived 0 (max 0 totalWeeks)], and is tagged
    [future] otherwise. *)
Theorem C2_cell_past_iff_below_clamp (totalWeeks weeksLived : Z) (i : nat) (c : Cell) :
  nth_error (allCells (layout totalWeeks weeksLived)) i = Some c ->
  (c = past <-> Z.of_nat i < clamp weeksLived 0 (Z.max 0 totalWeeks)) /\
  (c = future <-> ~ Z.of_nat i < clamp weeksLived 0 (Z.max 0 totalWeeks)).
Proof.
  intros H. rewrite layout_rowsFrom in H. apply rowsFrom_nth in H.
  assert (Hclamp : Z.min (Z.max 0 weeksLived) (Z.max 0 totalWeeks) =
                   clamp weeksLived 0 (Z.max 0 totalWeeks)).
  { unfold clamp.
    destruct (Z.ltb_spec weeksLived 0); [lia |].
    destruct (Z.ltb_spec (Z.max 0 totalWeeks) weeksLived); lia. }
  rewrite Hclamp in H. subst c. unfold tagAt. rewrite Z.add_0_l.
  destruct (Z.ltb_spec (Z.of_nat i) (clamp weeksLived 0 (Z.max 0 totalWeeks)));
    split; split; intros; try lia; try reflexivity; try discriminate.
Qed.

Lemma C2_witness :
  nth_error (allCells (layout 4680 1565)) 1564 = Some past /\
  (past = past <-> Z.of_nat 1564 < clamp 1565 0 (Z.max 0 4680)).
Proof.
  split.
  - vm_compute. reflexivity.
  - apply (C2_cell_past_iff_below_clamp 4680 1565 1564 past).
    vm_compute. reflexivity.
Defined.

(** C3, as the specification states it, fails: the cell count is not
    [max 0 totalWeeks] once [totalWeeks] exceeds 90 rows of 52. *)
Lemma C3_counterexample :
  cellCount (layout 4681 0) <> Z.max 0 4681 /\
  cellCount (layout 4681 0) = 4680.
Proof. split; [vm_compute; discriminate | vm_compute; reflexivity]. Qed.

(** C3, amended.  For every pair of integers, [layout] emits
    [min (max 0 totalWeeks) (90 * 52)] cells: these cells are partitioned into
    rows of exactly 52 cells each, with a possibly shorter final row, and no
    row or cell is emitted once the global index has reached
    [max 0 totalWeeks] or 90 rows are out (one row is emitted in any case). *)
Theorem C3_grid_partition (totalWeeks weeksLived : Z) :
  let shown := Z.min (Z.max 0 totalWeeks) (AVERAGE_LIFESPAN_YEARS * WEEKS_PER_YEAR) in
  let grid := layout totalWeeks weeksLived in
  cellCount grid = shown /\
  Z.of_nat (length grid) = Z.max 1 ((shown + 51) / WEEKS_PER_YEAR) /\
  forall k r, nth_error grid k = Some r ->
    Z.of_nat (length (cells r)) <= WEEKS_PER_YEAR /\
    ((S k < length grid)%nat -> Z.of_nat (length (cells r)) = WEEKS_PER_YEAR).
Proof.
  intros shown grid. subst shown grid. split; [apply layout_cellCount |]. split.
  - rewrite layout_length.
    unfold AVERAGE_LIFESPAN_YEARS, WEEKS_PER_YEAR.
    Z.to_euclidean_division_equations. lia.
  - intros k r H. rewrite layout_rowsFrom in *. now apply rowsFrom_rows in H.
Qed.

Lemma C3_witness :
  cellCount (layout 100 7) = 100 /\
  Z.of_nat (length (layout 100 7)) = 2 /\
  Z.of_nat (length (cells (mkRow false (repeat past 7 ++ repeat future 45)))) = 52.
Proof.
  pose proof (C3_grid_partition 100 7) as H. cbv zeta in H.
  destruct H as [Hcount [Hrows Hshape]].
  split; [exact Hcount | split; [exact Hrows |]].
  apply (Hshape 0%nat); [vm_compute; reflexivity | vm_compute; lia].
Defined.

(** C9.  For every pair of integers, [layout] emits at most 90 rows, so the
    number of emitted cells is [min (max 0 totalWeeks) 4680]; for any
    [totalWeeks] above 4680 exactly 4680 cells are emitted, not
    [totalWeeks]. *)
Theorem C9_at_most_90_rows (totalWeeks weeksLived : Z) :
  (length (layout totalWeeks weeksLived) <= 90)%nat /\
  cellCount (layout totalWeeks weeksLived) = Z.min (Z.max 0 totalWeeks) 4680 /\
  (4680 < totalWeeks ->
   cellCount (layout totalWeeks weeksLived) = 4680 /\
   cellCount (layout totalWeeks weeksLived) <> totalWeeks).
Proof.
  pose proof (layout_length totalWeeks weeksLived) as Hlen.
  pose proof (layout_cellCount totalWeeks weeksLived) as Hcount.
  unfold AVERAGE_LIFESPAN_YEARS, WEEKS_PER_YEAR in *.
  change (90 * 52) with 4680 in Hcount.
  split; [lia | split; [lia | intros Hbig; lia]].
Qed.

Lemma C9_witness :
  4680 < 5000 /\ cellCount (layout 5000 10) = 4680 /\ cellCount (layout 5000 10) <> 5000.
Proof.
  split; [reflexivity |].
  apply (proj2 (proj2 (C9_at_most_90_rows 5000 10))). reflexivity.
Defined.

(** C10.  For every [totalWeeks <= 0] and every [weeksLived], [layout] gives
    exactly one row, holding no cell, not an empty sequence of rows. *)
Theorem C10_no_weeks_one_empty_row (totalWeeks weeksLived : Z) :
  totalWeeks <= 0 ->
  layout totalWeeks weeksLived = [mkRow false []] /\
  length (layout totalWeeks weeksLived) = 1%nat /\
  layout totalWeeks weeksLived <> [].
Proof.
  intros H.
  assert (E : layout totalWeeks weeksLived = [mkRow false []]).
  { rewrite layout_rowsFrom. replace (Z.max 0 totalWeeks) with 0 by lia.
    reflexivity. }
  rewrite E. repeat split. discriminate.
Qed.

Lemma C10_witness :
  -3 <= 0 /\ layout (-3) 12 = [mkRow false []].
Proof.
  split; [discriminate |].
  apply (C10_no_weeks_one_empty_row (-3) 12). discriminate.
Defined.

(** ** calculateWeeks: helper facts *)

Lemma calculateWeeks_world (dob : Date) (w : World) :
  snd (calculateWeeks dob w) = w.
Proof. unfold calculateWeeks. now destruct (clock w <? dob). Qed.

Lemma calculateWeeks_returns (dob : Date) (w : World) :
  dob <= clock w ->
  fst (calculateWeeks dob w) =
  Returns (mkResult (AVERAGE_LIFESPAN_YEARS * WEEKS_PER_YEAR)
                    (num_sub (clock w) dob / MS_PER_WEEK)
                    (inject_Z (num_sub (clock w) dob) / MS_PER_YEAR)%Q).
Proof.
  intros H. unfold calculateWeeks.
  destruct (Z.ltb_spec (clock w) dob); [lia | reflexivity].
Qed.

Lemma calculateWeeks_throws (dob : Date) (w : World) :
  clock w < dob ->
  fst (calculateWeeks dob w) = Throws FutureDateOfBirth.
Proof.
  intros H. unfold calculateWeeks.
  destruct (Z.ltb_spec (clock w) dob); [reflexivity | lia].
Qed.

(** Whatever the two dates, the week count is the floor division of the
    elapsed milliseconds as the Number subtraction gives them. *)
Lemma weeksLived_of_msDiff (dob : Date) (w : World) (r : WeekModelResult) :
  fst (calculateWeeks dob w) = Returns r ->
  dob <= clock w /\
  weeksLived r = num_sub (clock w) dob / MS_PER_WEEK /\
  0 <= weeksLived r.
Proof.
  intros H.
  destruct (Z.lt_ge_cases (clock w) dob) as [Hlt | Hge].
  - rewrite calculateWeeks_throws in H by exact Hlt. discriminate.
  - rewrite calculateWeeks_returns in H by exact Hge.
    injection H as <-. cbn [weeksLived].
    split; [exact Hge | split; [reflexivity |]].
    apply Z.div_pos; [| reflexivity].
    apply round_to_double_sign. lia.
Qed.

(** What [calculateWeeks] returns has the constant [totalWeeks] and a
    non-negative [weeksLived]. *)
Lemma calculateWeeks_result_shape (dob : Date) (w : World) (r : WeekModelResult) :
  fst (calculateWeeks dob w) = Returns r ->
  totalWeeks r = 4680 /\ 0 <= weeksLived r /\ totalWeeks r <= MAX_SAFE.
Proof.
  intros H. pose proof (weeksLived_of_msDiff dob w r H) as (Hle & _ & Hpos).
  rewrite calculateWeeks_returns in H by exact Hle. injection H as <-.
  cbn [totalWeeks weeksLived] in *. repeat split; [exact Hpos | discriminate].
Qed.

(** With a clock that reads at most [2^53 - 8.64e15], which is past the year
    13000, every valid date of birth is within exact reach. *)
Lemma elapsed_is_safe (dob now : Date) :
  valid_time dob -> now <= MAX_SAFE - MAX_TIME -> now - dob <= MAX_SAFE.
Proof. unfold valid_time. lia. Qed.

(** ** calculateWeeks: claims *)

(** C1, as the specification states it, fails for two valid dates more than
    2^53 ms apart: their difference 9071999999999999 is no Number, the
    subtraction gives 9072000000000000, and the week count is one above the
    exact floor.  The binary64 evaluation agrees. *)
Lemma C1_counterexample :
  let dob := -431999999999999 in
  let w := blankWorld 8640000000000000 "-011720-05-01" in
  valid_time dob /\ valid_time (clock w) /\ dob <= clock w /\
  (exists r,
     fst (calculateWeeks dob w) = Returns r /\
     weeksLived r <> (clock w - dob) / (7 * 24 * 60 * 60 * 1000) /\
     weeksLived r = 15000000) /\
  (clock w - dob) / (7 * 24 * 60 * 60 * 1000) = 14999999 /\
  Binary64.weeksLived (clock w) dob = Some 15000000.
Proof.
  cbv zeta. unfold valid_time, MAX_TIME. cbn [clock blankWorld].
  split; [lia | split; [lia | split; [lia | split; [| split]]]].
  - eexists. split; [| split].
    + apply calculateWeeks_returns. cbn [clock blankWorld]. lia.
    + vm_compute. discriminate.
    + vm_compute. reflexivity.
  - vm_compute. reflexivity.
  - vm_compute. reflexivity.
Qed.

(** The subtraction above the exact range and below 2^54: the Numbers there
    are the even integers, an odd difference is a tie between its two
    neighbours, and the one that is a multiple of 4 wins. *)
Lemma round_to_double_above_safe (z : Z) :
  MAX_SAFE < z < 2 ^ 54 ->
  round_to_double z =
  if z mod 2 =? 0 then z else if z mod 4 =? 1 then z - 1 else z + 1.
Proof.
  unfold MAX_SAFE. intros H. unfold round_to_double, MAX_SAFE.
  rewrite Z.abs_eq by lia.
  destruct (Z.leb_spec z (2 ^ 53)) as [Hle | _]; [lia |].
  assert (Hlog : Z.log2 z = 53) by (apply Z.log2_unique; lia).
  rewrite Hlog.
  change (2 ^ (53 - 52)) with 2. change (2 ^ (53 - 52 - 1)) with 1.
  rewrite Z.sgn_pos by lia. rewrite (Zeven_mod (z / 2)).
  destruct (Z.ltb_spec (z mod 2) 1); destruct (Z.ltb_spec 1 (z mod 2));
    destruct (Z.eqb_spec (z mod 2) 0); destruct (Z.eqb_spec (z mod 4) 1);
    destruct (Z.eqb_spec ((z / 2) mod 2) 0);
    Z.to_euclidean_division_equations; lia.
Qed.

(** The weeks in the rounded difference of two valid dates: the floor of the
    exact difference, but for a difference above 2^53 that is one
    millisecond short of a whole number of weeks, which rounds up to it. *)
Lemma weeks_of_rounded_difference (d : Z) :
  0 <= d <= 2 * MAX_TIME ->
  round_to_double d / 604800000 =
  if (MAX_SAFE <? d) && (d mod 604800000 =? 604799999)
  then d / 604800000 + 1 else d / 604800000.
Proof.
  unfold MAX_TIME. intros Hd.
  destruct (Z.ltb_spec MAX_SAFE d) as [Hbig | Hsafe]; cbn [andb].
  - rewrite round_to_double_above_safe by (unfold MAX_SAFE in *; lia).
    destruct (Z.eqb_spec (d mod 2) 0); destruct (Z.eqb_spec (d mod 4) 1);
      destruct (Z.eqb_spec (d mod 604800000) 604799999);
      Z.to_euclidean_division_equations; lia.
  - rewrite round_to_double_exact by lia. reflexivity.
Qed.

(** C1, amended.  For every pair of valid dates with [dob <= now],
    [weeksLived] is a non-negative integer and equals
    [floor ((now - dob) / (7 * 24 * 60 * 60 * 1000))], the exact floor
    division of the elapsed milliseconds by the milliseconds per week, except
    when the two dates are more than 2^53 ms apart and the elapsed
    milliseconds are 604799999 modulo 604800000, where it is that floor plus
    one; and it may exceed [totalWeeks]. *)
Theorem C1_weeksLived_exact_floor :
  (forall (dob : Date) (w : World),
     valid_time dob -> valid_time (clock w) -> dob <= clock w ->
     exists r,
       fst (calculateWeeks dob w) = Returns r /\
       0 <= weeksLived r /\
       (~ (MAX_SAFE < clock w - dob /\
           (clock w - dob) mod (7 * 24 * 60 * 60 * 1000) = 604799999) ->
        weeksLived r = (clock w - dob) / (7 * 24 * 60 * 60 * 1000) /\
        MS_PER_WEEK * weeksLived r <= clock w - dob
          < MS_PER_WEEK * (weeksLived r + 1)) /\
       (MAX_SAFE < clock w - dob /\
        (clock w - dob) mod (7 * 24 * 60 * 60 * 1000) = 604799999 ->
        weeksLived r = (clock w - dob) / (7 * 24 * 60 * 60 * 1000) + 1)) /\
  (exists (dob : Date) (w : World) (r : WeekModelResult),
     valid_time dob /\ valid_time (clock w) /\ dob <= clock w /\
     fst (calculateWeeks dob w) = Returns r /\
     totalWeeks r < weeksLived r).
Proof.
  split.
  - intros dob w Hdob Hnow Hle. eexists. split.
    + apply calculateWeeks_returns, Hle.
    + cbn [weeksLived]. unfold num_sub.
      change (7 * 24 * 60 * 60 * 1000) with 604800000.
      change MS_PER_WEEK with 604800000.
      assert (Hd : 0 <= clock w - dob <= 2 * MAX_TIME)
        by (unfold valid_time in *; lia).
      rewrite (weeks_of_rounded_difference _ Hd).
      pose proof (Z.div_pos (clock w - dob) 604800000).
      destruct (Z.ltb_spec MAX_SAFE (clock w - dob)) as [Hbig | Hsafe];
        destruct (Z.eqb_spec ((clock w - dob) mod 604800000) 604799999)
          as [Hm | Hm]; cbn [andb];
        (split; [lia | split; intros H0]);
        try (exfalso; lia);
        try (split; [reflexivity |]);
        try reflexivity;
        Z.to_euclidean_division_equations; lia.
  - exists 0, (blankWorld 3000000000000 "1970-01-01"). eexists.
    unfold valid_time, MAX_TIME. cbn [clock blankWorld].
    split; [lia | split; [lia | split; [lia | split]]].
    + apply calculateWeeks_returns. cbn [clock blankWorld]. lia.
    + vm_compute. reflexivity.
Qed.

Lemma C1_witness :
  exists r,
    fst (calculateWeeks 946684800000 (blankWorld 1893456000000 "2000-01-01"))
      = Returns r /\
    weeksLived r = 1565.
Proof.
  destruct (proj1 C1_weeksLived_exact_floor 946684800000
              (blankWorld 1893456000000 "2000-01-01")) as [r [Hr [_ [Hw _]]]].
  - unfold valid_time, MAX_TIME. lia.
  - unfold valid_time, MAX_TIME. cbn [clock blankWorld]. lia.
  - cbn [clock blankWorld]. lia.
  - exists r. split; [exact Hr |].
    destruct Hw as [Hw _].
    + unfold MAX_SAFE. cbn [clock blankWorld]. intros [Hbig _].
      revert Hbig. vm_compute. discriminate.
    + rewrite Hw. vm_compute. reflexivity.
Defined.

(** C4.  For every pair of dates with [dob <= now], [totalWeeks] is the
    constant 4680, 90 years of 52 weeks, whatever the two dates. *)
Theorem C4_totalWeeks_constant (dob : Date) (w : World) :
  dob <= clock w ->
  exists r,
    fst (calculateWeeks dob w) = Returns r /\
    totalWeeks r = 4680 /\ totalWeeks r = 90 * 52.
Proof.
  intros H. eexists. split; [apply calculateWeeks_returns, H |].
  split; reflexivity.
Qed.

Lemma C4_witness :
  exists r,
    fst (calculateWeeks 946684800000 (blankWorld 1893456000000 "2000-01-01"))
      = Returns r /\
    totalWeeks r = 4680 /\ totalWeeks r = 90 * 52.
Proof.
  apply (C4_totalWeeks_constant 946684800000
           (blankWorld 1893456000000 "2000-01-01")).
  cbn [clock blankWorld]. lia.
Defined.

(** C8, as the specification states it, fails: the outcome of
    [calculateWeeks] for one date of birth depends on the wall clock, in two
    worlds that differ in nothing else. *)
Lemma C8_counterexample :
  fst (calculateWeeks 0 (blankWorld 0 "1970-01-01")) <>
  fst (calculateWeeks 0 (blankWorld 604800000 "1970-01-01")).
Proof. vm_compute. intros H. discriminate H. Qed.

(** C8, amended.  [calculateWeeks] has one parameter, [dob], and reads [now]
    from the wall clock: its outcome is a function of [dob] and of that clock
    reading alone, so two calls with the same [dob] at the same clock reading
    give equal outcomes whatever else differs, and a call changes nothing in
    the world. *)
Theorem C8_outcome_depends_on_dob_and_clock (dob : Date) (w w' : World) :
  clock w = clock w' ->
  fst (calculateWeeks dob w) = fst (calculateWeeks dob w') /\
  snd (calculateWeeks dob w) = w /\
  snd (calculateWeeks dob w') = w'.
Proof.
  intros H. split; [| split; apply calculateWeeks_world].
  unfold calculateWeeks. rewrite H.
  now destruct (clock w' <? dob).
Qed.

Lemma C8_witness :
  fst (calculateWeeks 0 (blankWorld 604800000 "1970-01-01")) =
  fst (calculateWeeks 0 (console_push (warn "earlier") (blankWorld 604800000 "2001-02-03"))).
Proof.
  apply (C8_outcome_depends_on_dob_and_clock 0
           (blankWorld 604800000 "1970-01-01")
           (console_push (warn "earlier") (blankWorld 604800000 "2001-02-03"))).
  reflexivity.
Defined.

(** ** The summary and the submit handler *)

Section Handler.

Variable parseDate : string -> option Date.
Variable toLocaleString : Z -> string.
Variable toFixed1 : Q -> string.
Variable toISODate : Date -> string.

#[local] Abbreviation summary := (updateSummary toLocaleString toFixed1).
#[local] Abbreviation draw := (render toLocaleString toFixed1 toISODate).
#[local] Abbreviation submit :=
  (onSubmit parseDate toLocaleString toFixed1 toISODate).

Lemma remaining_exact (r : WeekModelResult) :
  0 <= weeksLived r -> totalWeeks r <= MAX_SAFE ->
  Z.max 0 (num_sub (totalWeeks r) (weeksLived r)) =
  Z.max 0 (totalWeeks r - weeksLived r).
Proof.
  intros Hw Ht.
  destruct (Z.le_gt_cases (totalWeeks r - weeksLived r) 0) as [Hle | Hgt].
  - pose proof (proj2 (round_to_double_sign _) Hle). unfold num_sub. lia.
  - rewrite num_sub_exact by lia. reflexivity.
Qed.

Lemma updateSummary_fields (r : WeekModelResult) (w : World) :
  ageEl (summary r w) = option_map (fun _ => toFixed1 (yearsLived r)) (ageEl w) /\
  livedEl (summary r w) =
    option_map (fun _ => toLocaleString (weeksLived r)) (livedEl w) /\
  remainingEl (summary r w) =
    option_map (fun _ => toLocaleString
                  (Z.max 0 (num_sub (totalWeeks r) (weeksLived r))))
               (remainingEl w) /\
  gridEl (summary r w) = gridEl w /\
  gridEl_is_fresh (summary r w) = gridEl_is_fresh w /\
  dobErrorEl (summary r w) = dobErrorEl w /\
  console (summary r w) = console w.
Proof.
  destruct w as [c v g f [a |] [l |] [m |] e k]; repeat split.
Qed.

Lemma showError_fields (msg : string) (w : World) :
  dobErrorEl (showError msg w) =
    option_map (fun _ => mkFeedback msg true) (dobErrorEl w) /\
  gridEl (showError msg w) = gridEl w /\
  gridEl_is_fresh (showError msg w) = gridEl_is_fresh w /\
  ageEl (showError msg w) = ageEl w /\
  livedEl (showError msg w) = livedEl w /\
  remainingEl (showError msg w) = remainingEl w /\
  console (showError msg w) = console w.
Proof.
  destruct w as [c v g f a l m [e |] k]; repeat split.
Qed.

Lemma render_fields (dob : Date) (r : WeekModelResult) (w : World) :
  gridEl (draw dob r w) = layout (totalWeeks r) (weeksLived r) /\
  gridEl_is_fresh (draw dob r w) = true /\
  ageEl (draw dob r w) = option_map (fun _ => toFixed1 (yearsLived r)) (ageEl w) /\
  livedEl (draw dob r w) =
    option_map (fun _ => toLocaleString (weeksLived r)) (livedEl w) /\
  remainingEl (draw dob r w) =
    option_map (fun _ => toLocaleString
                  (Z.max 0 (num_sub (totalWeeks r) (weeksLived r))))
               (remainingEl w) /\
  dobErrorEl (draw dob r w) = dobErrorEl w.
Proof.
  destruct w as [c v g f [a |] [l |] [m |] e k]; repeat split.
Qed.

(** The handler once the input is not empty and parses to [dob]. *)
Lemma onSubmit_parsed (w : World) (dob : Date) :
  dobInput_value w <> EmptyString ->
  parseDate (dobInput_value w) = Some dob ->
  submit w =
  match fst (calculateWeeks dob w) with
  | Throws error => console_push (warn (message error)) w
  | Returns r =>
      if Qltb (yearsLived r) (1 # 10) then
        draw dob r
          (showError "Welcome to the world. This chart shows your journey ahead." w)
      else if Qltb (inject_Z MAX_REASONABLE_AGE_YEARS) (yearsLived r) then
        showError "That date is very far in the past. Please check your year." w
      else if Qltb (inject_Z AVERAGE_LIFESPAN_YEARS) (yearsLived r) then
        draw dob r
          (showError "You've passed the 90-year mark in this model. Remaining weeks are shown as zero." w)
      else draw dob r (clearError w)
  end.
Proof.
  intros Hne Hparse. unfold onSubmit.
  apply String.eqb_neq in Hne. rewrite Hne, Hparse.
  pose proof (calculateWeeks_world dob w) as Hw.
  destruct (calculateWeeks dob w) as [[r | e] w']; cbn [fst snd] in *;
    subst w'; reflexivity.
Qed.


(** C5.  [calculateWeeks] fails exactly when [dob > now], and then with the
    FutureDateOfBirth error; when it fails in the handler, the error is caught
    and only logged as a warning: the grid, the summary and the message stay
    as they were rendered before. *)
Theorem C5_future_dob_fails_and_nothing_is_rendered :
  (forall (dob : Date) (w : World),
     ((exists e, fst (calculateWeeks dob w) = Throws e) <-> clock w < dob) /\
     (clock w < dob -> fst (calculateWeeks dob w) = Throws FutureDateOfBirth)) /\
  (forall (dob : Date) (w : World),
     dobInput_value w <> EmptyString ->
     parseDate (dobInput_value w) = Some dob ->
     clock w < dob ->
     submit w = console_push (warn "Date of birth cannot be in the future.") w /\
     gridEl (submit w) = gridEl w /\
     gridEl_is_fresh (submit w) = gridEl_is_fresh w /\
     ageEl (submit w) = ageEl w /\
     livedEl (submit w) = livedEl w /\
     remainingEl (submit w) = remainingEl w /\
     dobErrorEl (submit w) = dobErrorEl w).
Proof.
  split.
  - intros dob w. split; [split |].
    + intros [e He]. destruct (Z.lt_ge_cases (clock w) dob) as [Hlt | Hge];
        [exact Hlt |].
      rewrite calculateWeeks_returns in He by exact Hge. discriminate.
    + intros Hlt. eexists. apply calculateWeeks_throws, Hlt.
    + apply calculateWeeks_throws.
  - intros dob w Hne Hparse Hlt.
    rewrite (onSubmit_parsed w dob Hne Hparse).
    rewrite (calculateWeeks_throws dob w Hlt).
    repeat split.
Qed.

(** C6.  In the handler, an age above 110 years aborts the submission before
    anything is rendered: the message is shown and neither the grid nor the
    summary changes.  An age below 0.1 years shows its message and the grid
    and the summary are rendered all the same. *)
Theorem C6_implausible_age_aborts_newborn_renders
    (dob : Date) (w : World) (r : WeekModelResult) :
  dobInput_value w <> EmptyString ->
  parseDate (dobInput_value w) = Some dob ->
  fst (calculateWeeks dob w) = Returns r ->
  ((inject_Z MAX_REASONABLE_AGE_YEARS < yearsLived r)%Q ->
   submit w =
     showError "That date is very far in the past. Please check your year." w /\
   gridEl (submit w) = gridEl w /\
   gridEl_is_fresh (submit w) = gridEl_is_fresh w /\
   ageEl (submit w) = ageEl w /\
   livedEl (submit w) = livedEl w /\
   remainingEl (submit w) = remainingEl w) /\
  ((yearsLived r < 1 # 10)%Q ->
   dobErrorEl (submit w) =
     option_map
       (fun _ => mkFeedback
          "Welcome to the world. This chart shows your journey ahead." true)
       (dobErrorEl w) /\
   gridEl (submit w) = layout (totalWeeks r) (weeksLived r) /\
   ageEl (submit w) = option_map (fun _ => toFixed1 (yearsLived r)) (ageEl w) /\
   livedEl (submit w) =
     option_map (fun _ => toLocaleString (weeksLived r)) (livedEl w) /\
   remainingEl (submit w) =
     option_map (fun _ => toLocaleString
                   (Z.max 0 (num_sub (totalWeeks r) (weeksLived r))))
                (remainingEl w)).
Proof.
  intros Hne Hparse Hr.
  rewrite (onSubmit_parsed w dob Hne Hparse), Hr.
  split.
  - intros Hold.
    assert (Hnew : Qltb (yearsLived r) (1 # 10) = false).
    { destruct (Qltb (yearsLived r) (1 # 10)) eqn:E; [| reflexivity].
      apply Qltb_lt in E.
      assert (Habs : (inject_Z MAX_REASONABLE_AGE_YEARS < 1 # 10)%Q)
        by (eapply Qlt_trans; eassumption).
      discriminate Habs. }
    apply Qltb_lt in Hold. rewrite Hnew, Hold.
    split; [reflexivity |].
    pose proof (showError_fields
      "That date is very far in the past. Please check your year." w)
      as (_ & Hg & Hf & Ha & Hl & Hm & _).
    repeat split; assumption.
  - intros Hnew. apply Qltb_lt in Hnew. rewrite Hnew.
    set (w1 := showError _ w).
    pose proof (render_fields dob r w1) as (Hg & _ & Ha & Hl & Hm & He).
    pose proof (showError_fields
      "Welcome to the world. This chart shows your journey ahead." w)
      as (He' & _ & _ & Ha' & Hl' & Hm' & _).
    fold w1 in He', Ha', Hl', Hm'.
    rewrite Hg, Ha, Hl, Hm, He, He', Ha', Hl', Hm'. repeat split.
Qed.

(** C7.  For every WeekModelResult (a non-negative [weeksLived], and a
    [totalWeeks] that is a safe integer, as the constant 4680 is), the
    remaining count that is formatted is [max 0 (totalWeeks - weeksLived)]
    with the raw, unclamped [weeksLived]: exactly zero whenever
    [weeksLived >= totalWeeks], and [totalWeeks - weeksLived] otherwise. *)
Theorem C7_remaining_is_floored_at_zero
    (r : WeekModelResult) (w : World) (shown : string) :
  remainingEl w = Some shown ->
  0 <= weeksLived r -> totalWeeks r <= MAX_SAFE ->
  remainingEl (summary r w) =
    Some (toLocaleString (Z.max 0 (totalWeeks r - weeksLived r))) /\
  (totalWeeks r <= weeksLived r ->
   remainingEl (summary r w) = Some (toLocaleString 0)) /\
  (weeksLived r < totalWeeks r ->
   remainingEl (summary r w) =
     Some (toLocaleString (totalWeeks r - weeksLived r))).
Proof.
  intros Hel Hw Ht.
  pose proof (updateSummary_fields r w) as (_ & _ & Hm & _).
  rewrite Hm, Hel. cbn [option_map].
  rewrite (remaining_exact r Hw Ht).
  split; [reflexivity | split]; intros H; do 2 f_equal; lia.
Qed.

End Handler.

Lemma C5_witness :
  onSubmit (parseAs 2000) decimalString noText noText
           (set_gridEl (layout 104 60) (blankWorld 1000 "2999-01-01")) =
  console_push (warn "Date of birth cannot be in the future.")
               (set_gridEl (layout 104 60) (blankWorld 1000 "2999-01-01")).
Proof.
  destruct (proj2 (C5_future_dob_fails_and_nothing_is_rendered
                     (parseAs 2000) decimalString noText noText)
                  2000 (set_gridEl (layout 104 60) (blankWorld 1000 "2999-01-01")))
    as [H _].
  - discriminate.
  - reflexivity.
  - reflexivity.
  - exact H.
Defined.

Lemma C6_witness :
  gridEl (onSubmit (parseAs (-1893456000000)) decimalString noText noText
            (set_gridEl (layout 104 60) (blankWorld 1893456000000 "1910-01-01")))
    = layout 104 60 /\
  gridEl (onSubmit (parseAs 1893369600000) decimalString noText noText
            (set_gridEl (layout 104 60) (blankWorld 1893456000000 "2029-12-31")))
    = layout 4680 0.
Proof.
  split.
  - pose (w := set_gridEl (layout 104 60) (blankWorld 1893456000000 "1910-01-01")).
    assert (Hle : -1893456000000 <= clock w) by discriminate.
    destruct (C6_implausible_age_aborts_newborn_renders
                (parseAs (-1893456000000)) decimalString noText noText
                (-1893456000000) w _
                ltac:(discriminate) eq_refl
                (calculateWeeks_returns (-1893456000000) w Hle))
      as [[_ [H _]] _].
    + vm_compute. reflexivity.
    + exact H.
  - pose (w := set_gridEl (layout 104 60) (blankWorld 1893456000000 "2029-12-31")).
    assert (Hle : 1893369600000 <= clock w) by discriminate.
    destruct (C6_implausible_age_aborts_newborn_renders
                (parseAs 1893369600000) decimalString noText noText
                1893369600000 w _
                ltac:(discriminate) eq_refl
                (calculateWeeks_returns 1893369600000 w Hle))
      as [_ H].
    destruct H as [_ [H _]].
    + vm_compute. reflexivity.
    + refine (eq_trans H _). vm_compute. reflexivity.
Defined.

Lemma C7_witness :
  remainingEl (updateSummary decimalString noText (mkResult 4680 4957 (95 # 1))
                 (blankWorld 0 "1931-01-01")) = Some "0"%string /\
  remainingEl (updateSummary decimalString noText (mkResult 4680 1565 (30 # 1))
                 (blankWorld 0 "1996-01-01")) = Some "3115"%string.
Proof.
  split.
  - destruct (C7_remaining_is_floored_at_zero decimalString noText
                (mkResult 4680 4957 (95 # 1)) (blankWorld 0 "1931-01-01")
                EmptyString eq_refl)
      as [_ [H _]]; [discriminate | discriminate |].
    apply H. discriminate.
  - destruct (C7_remaining_is_floored_at_zero decimalString noText
                (mkResult 4680 1565 (30 # 1)) (blankWorld 0 "1996-01-01")
                EmptyString eq_refl)
      as [_ [_ H]]; [discriminate | discriminate |].
    apply H. reflexivity.
Defined.

(** * Further properties of the script *)

(** ** The grid: which cells are past, row by row *)

Lemma Some_eq {A : Type} (a b : A) : Some a = Some b -> a = b.
Proof. intros H. now injection H. Qed.

Lemma cellsFrom_stop (n : nat) (globalIndex safeTotal safeLived : Z) :
  safeTotal <= globalIndex ->
  cellsFrom n globalIndex safeTotal safeLived = [].
Proof.
  intros H. destruct n as [| n]; [reflexivity |]. cbn [cellsFrom].
  destruct (Z.geb_spec globalIndex safeTotal); [reflexivity | lia].
Qed.

Lemma cellsFrom_app (a b : nat) :
  forall globalIndex safeTotal safeLived,
    cellsFrom (a + b) globalIndex safeTotal safeLived =
    cellsFrom a globalIndex safeTotal safeLived ++
    cellsFrom b (globalIndex
                 + Z.of_nat (length (cellsFrom a globalIndex safeTotal safeLived)))
              safeTotal safeLived.
Proof.
  induction a as [| a IH]; intros gi N L.
  - cbn [cellsFrom Nat.add length app]. now rewrite Z.add_0_r.
  - cbn [Nat.add cellsFrom]. destruct (Z.geb_spec gi N) as [Hge | Hlt].
    + cbn [app length]. rewrite cellsFrom_stop by lia. reflexivity.
    + rewrite IH. cbn [app length]. do 3 f_equal. lia.
Qed.

Lemma rowsFrom_allCells (n : nat) :
  forall year globalIndex safeTotal safeLived,
    allCells (rowsFrom n year globalIndex safeTotal safeLived) =
    cellsFrom (Z.to_nat WEEKS_PER_YEAR * n) globalIndex safeTotal safeLived.
Proof.
  induction n as [| n IH]; intros y gi N L.
  - now rewrite Nat.mul_0_r.
  - cbn [rowsFrom]. rewrite allCells_cons. cbn [cells].
    rewrite Nat.mul_succ_r, Nat.add_comm, cellsFrom_app. f_equal.
    destruct (Z.geb_spec (gi + Z.of_nat (length
                (cellsFrom (Z.to_nat WEEKS_PER_YEAR) gi N L))) N) as [Hge | Hlt].
    + rewrite cellsFrom_stop by lia. reflexivity.
    + apply IH.
Qed.

Lemma cellsFrom_closed (n : nat) :
  forall globalIndex safeTotal safeLived,
    let k := Z.min (Z.of_nat n) (Z.max 0 (safeTotal - globalIndex)) in
    let p := Z.min k (safeLived - globalIndex) in
    cellsFrom n globalIndex safeTotal safeLived =
    repeat past (Z.to_nat p) ++ repeat future (Z.to_nat (k - Z.max 0 p)).
Proof.
  induction n as [| n IH]; intros gi N L k p; subst k p.
  - cbn [cellsFrom].
    replace (Z.to_nat _) with 0%nat by lia.
    replace (Z.to_nat _) with 0%nat by lia. reflexivity.
  - cbn [cellsFrom]. destruct (Z.geb_spec gi N) as [Hge | Hlt].
    + replace (Z.to_nat _) with 0%nat by lia.
      replace (Z.to_nat _) with 0%nat by lia. reflexivity.
    + specialize (IH (gi + 1) N L). cbv zeta in IH. rewrite IH.
      unfold tagAt. destruct (Z.ltb_spec gi L) as [Hpast | Hfuture].
      * replace (Z.to_nat (Z.min (Z.min (Z.of_nat (S n)) (Z.max 0 (N - gi))) (L - gi)))
          with (S (Z.to_nat (Z.min (Z.min (Z.of_nat n) (Z.max 0 (N - (gi + 1))))
                                   (L - (gi + 1))))) by lia.
        cbn [repeat app]. do 3 f_equal. lia.
      * replace (Z.to_nat (Z.min (Z.min (Z.of_nat (S n)) (Z.max 0 (N - gi))) (L - gi)))
          with 0%nat by lia.
        replace (Z.to_nat (Z.min (Z.min (Z.of_nat n) (Z.max 0 (N - (gi + 1))))
                                 (L - (gi + 1)))) with 0%nat by lia.
        cbn [repeat app].
        replace (Z.to_nat (Z.min (Z.of_nat (S n)) (Z.max 0 (N - gi))
                           - Z.max 0 (Z.min (Z.min (Z.of_nat (S n))
                                                   (Z.max 0 (N - gi))) (L - gi))))
          with (S (Z.to_nat (Z.min (Z.of_nat n) (Z.max 0 (N - (gi + 1)))
                             - Z.max 0 (Z.min (Z.min (Z.of_nat n)
                                                     (Z.max 0 (N - (gi + 1))))
                                              (L - (gi + 1)))))) by lia.
        reflexivity.
Qed.

Lemma safeLived_clamp (totalWeeks weeksLived : Z) :
  Z.min (Z.max 0 weeksLived) (Z.max 0 totalWeeks) =
  clamp weeksLived 0 (Z.max 0 totalWeeks).
Proof.
  unfold clamp.
  destruct (Z.ltb_spec weeksLived 0); [lia |].
  destruct (Z.ltb_spec (Z.max 0 totalWeeks) weeksLived); lia.
Qed.

(** X1.  In row-major order the grid is a run of past cells followed by a
    run of future cells, for every pair of integers: the first
    [min (clamp weeksLived 0 (max 0 totalWeeks)) 4680] cells are past and the
    rest of the [min (max 0 totalWeeks) 4680] cells are future. *)
Theorem layout_past_then_future (totalWeeks weeksLived : Z) :
  let shown := Z.min (Z.max 0 totalWeeks) 4680 in
  let lived := Z.min (clamp weeksLived 0 (Z.max 0 totalWeeks)) 4680 in
  allCells (layout totalWeeks weeksLived) =
  repeat past (Z.to_nat lived) ++ repeat future (Z.to_nat (shown - lived)).
Proof.
  intros shown lived. subst shown lived.
  rewrite layout_rowsFrom, rowsFrom_allCells, cellsFrom_closed.
  rewrite safeLived_clamp.
  change (Z.of_nat (Z.to_nat WEEKS_PER_YEAR * Z.to_nat AVERAGE_LIFESPAN_YEARS))
    with 4680.
  assert (H : 0 <= clamp weeksLived 0 (Z.max 0 totalWeeks) <= Z.max 0 totalWeeks).
  { rewrite <- safeLived_clamp. lia. }
  f_equal; f_equal; f_equal; lia.
Qed.

Lemma rowsFrom_cell_at (n : nat) :
  forall year globalIndex safeTotal safeLived k r j c,
    nth_error (rowsFrom n year globalIndex safeTotal safeLived) k = Some r ->
    nth_error (cells r) j = Some c ->
    c = tagAt safeLived (globalIndex + WEEKS_PER_YEAR * Z.of_nat k + Z.of_nat j).
Proof.
  induction n as [| n IH]; intros y gi N L k r j c Hr Hc.
  - destruct k; discriminate.
  - cbn [rowsFrom] in Hr.
    pose proof (cellsFrom_length (Z.to_nat WEEKS_PER_YEAR) gi N L) as Hlen.
    change (Z.of_nat (Z.to_nat WEEKS_PER_YEAR)) with 52 in Hlen.
    destruct k as [| k]; cbn [nth_error] in Hr.
    + apply Some_eq in Hr. rewrite <- Hr in Hc. cbn [cells] in Hc.
      apply cellsFrom_nth in Hc. subst c. f_equal. lia.
    + destruct (Z.geb_spec (gi + Z.of_nat (length
                  (cellsFrom (Z.to_nat WEEKS_PER_YEAR) gi N L))) N) as [Hge | Hlt].
      * destruct k; discriminate.
      * apply (IH _ _ _ _ _ _ _ _ Hr) in Hc. subst c. f_equal.
        unfold WEEKS_PER_YEAR in *. lia.
Qed.

(** X2.  Week [j] of the row of year [k] has the global index [52 * k + j]:
    whatever the two integers, that cell is past exactly when [52 * k + j]
    is below [clamp weeksLived 0 (max 0 totalWeeks)]. *)
Theorem layout_week_of_year (totalWeeks weeksLived : Z) (k j : nat) (r : Row) (c : Cell) :
  nth_error (layout totalWeeks weeksLived) k = Some r ->
  nth_error (cells r) j = Some c ->
  (c = past <->
   52 * Z.of_nat k + Z.of_nat j < clamp weeksLived 0 (Z.max 0 totalWeeks)).
Proof.
  intros Hr Hc. rewrite layout_rowsFrom in Hr.
  apply (rowsFrom_cell_at _ _ _ _ _ _ _ _ _ Hr) in Hc.
  rewrite safeLived_clamp in Hc. subst c. unfold tagAt, WEEKS_PER_YEAR.
  rewrite Z.add_0_l.
  destruct (Z.ltb_spec (52 * Z.of_nat k + Z.of_nat j)
                       (clamp weeksLived 0 (Z.max 0 totalWeeks)));
    split; intros; try lia; try reflexivity; try discriminate.
Qed.

Lemma layout_week_of_year_witness :
  nth_error (layout 4680 1565) 30 = Some (mkRow true (repeat past 5 ++ repeat future 47)) /\
  (future = past <-> 52 * Z.of_nat 30 + Z.of_nat 5 < clamp 1565 0 (Z.max 0 4680)).
Proof.
  assert (Hr : nth_error (layout 4680 1565) 30
               = Some (mkRow true (repeat past 5 ++ repeat future 47)))
    by (vm_compute; reflexivity).
  split; [exact Hr |].
  apply (layout_week_of_year 4680 1565 30 5 _ future Hr). reflexivity.
Defined.

Lemma rowsFrom_decade (n : nat) :
  forall year globalIndex safeTotal safeLived k r,
    nth_error (rowsFrom n year globalIndex safeTotal safeLived) k = Some r ->
    decade r = (0 <? year + Z.of_nat k) && (Z.rem (year + Z.of_nat k) 10 =? 0).
Proof.
  induction n as [| n IH]; intros y gi N L k r H.
  - destruct k; discriminate.
  - cbn [rowsFrom] in H. destruct k as [| k]; cbn [nth_error] in H.
    + apply Some_eq in H. rewrite <- H. cbn [decade]. now rewrite Z.add_0_r.
    + destruct (_ >=? N); [destruct k; discriminate |].
      apply IH in H. rewrite H.
      replace (y + 1 + Z.of_nat k) with (y + Z.of_nat (S k)) by lia.
      reflexivity.
Qed.

(** X3.  The rows marked as decades are those of the years 10, 20, ...: a
    row of the grid carries [year-row--decade] exactly when its zero-based
    index is positive and a multiple of 10, whatever the two integers. *)
Theorem layout_decade_rows (totalWeeks weeksLived : Z) (k : nat) (r : Row) :
  nth_error (layout totalWeeks weeksLived) k = Some r ->
  (decade r = true <-> (0 < k /\ k mod 10 = 0)%nat).
Proof.
  intros H. rewrite layout_rowsFrom in H. apply rowsFrom_decade in H.
  rewrite H, Z.add_0_l, andb_true_iff, Z.ltb_lt, Z.eqb_eq.
  rewrite Z.rem_mod_nonneg by lia.
  change 10 with (Z.of_nat 10). rewrite <- Nat2Z.inj_mod. lia.
Qed.

Lemma layout_decade_rows_witness :
  nth_error (layout 4680 0) 20 = Some (mkRow true (repeat future 52)) /\
  (true = true <-> (0 < 20 /\ 20 mod 10 = 0)%nat).
Proof.
  assert (Hr : nth_error (layout 4680 0) 20 = Some (mkRow true (repeat future 52)))
    by (vm_compute; reflexivity).
  split; [exact Hr |].
  apply (layout_decade_rows 4680 0 20 _ Hr).
Defined.

(** ** The age tests in elapsed milliseconds *)

Lemma yearsLived_num_den (d : Z) :
  Qnum (inject_Z d / MS_PER_YEAR) = d * 100 /\
  QDen (inject_Z d / MS_PER_YEAR) = 3155760000000.
Proof.
  split.
  - unfold Qdiv, Qmult, Qinv, MS_PER_YEAR, inject_Z. cbn. reflexivity.
  - unfold Qdiv, Qmult, Qinv, MS_PER_YEAR, inject_Z. cbn. reflexivity.
Qed.

Lemma yearsLived_newborn (d : Z) :
  Qltb (inject_Z d / MS_PER_YEAR) (1 # 10) = (d <? MS_NEWBORN).
Proof.
  unfold Qltb. destruct (yearsLived_num_den d) as [-> ->].
  cbn [Qnum Qden]. unfold MS_NEWBORN.
  destruct (Z.ltb_spec (d * 100 * 10) (1 * 3155760000000));
    destruct (Z.ltb_spec d 3155760000); lia.
Qed.

Lemma yearsLived_over_lifespan (d : Z) :
  Qltb (inject_Z AVERAGE_LIFESPAN_YEARS) (inject_Z d / MS_PER_YEAR)
  = (MS_LIFESPAN <? d).
Proof.
  unfold Qltb. destruct (yearsLived_num_den d) as [-> ->].
  unfold AVERAGE_LIFESPAN_YEARS, MS_LIFESPAN, inject_Z. cbn [Qnum Qden].
  destruct (Z.ltb_spec (90 * 3155760000000) (d * 100 * 1));
    destruct (Z.ltb_spec 2840184000000 d); lia.
Qed.

Lemma yearsLived_over_reasonable (d : Z) :
  Qltb (inject_Z MAX_REASONABLE_AGE_YEARS) (inject_Z d / MS_PER_YEAR)
  = (MS_REASONABLE <? d).
Proof.
  unfold Qltb. destruct (yearsLived_num_den d) as [-> ->].
  unfold MAX_REASONABLE_AGE_YEARS, MS_REASONABLE, inject_Z. cbn [Qnum Qden].
  destruct (Z.ltb_spec (110 * 3155760000000) (d * 100 * 1));
    destruct (Z.ltb_spec 3471336000000 d); lia.
Qed.

(** Every row is full when the bound of the outer loop is reached before
    [safeTotal] is. *)
Lemma rowsFrom_full_rows (n : nat) :
  forall year globalIndex safeTotal safeLived k r,
    globalIndex + WEEKS_PER_YEAR * Z.of_nat n <= safeTotal ->
    nth_error (rowsFrom n year globalIndex safeTotal safeLived) k = Some r ->
    length (cells r) = 52%nat.
Proof.
  induction n as [| n IH]; intros y gi N L k r Hroom H.
  - destruct k; discriminate.
  - cbn [rowsFrom] in H.
    pose proof (cellsFrom_length (Z.to_nat WEEKS_PER_YEAR) gi N L) as Hlen.
    change (Z.of_nat (Z.to_nat WEEKS_PER_YEAR)) with 52 in Hlen.
    unfold WEEKS_PER_YEAR in *.
    destruct k as [| k]; cbn [nth_error] in H.
    + apply Some_eq in H. rewrite <- H. cbn [cells]. lia.
    + destruct (Z.geb_spec (gi + Z.of_nat (length
                  (cellsFrom (Z.to_nat 52) gi N L))) N) as [Hge | Hlt].
      * destruct k; discriminate.
      * apply IH in H; [exact H | lia].
Qed.

(** The cells of the grid of the script's own [totalWeeks]. *)
Lemma layout_4680_cells (weeksLived : Z) :
  allCells (layout 4680 weeksLived) =
  repeat past (Z.to_nat (Z.min weeksLived 4680)) ++
  repeat future (Z.to_nat (4680 - Z.max 0 (Z.min weeksLived 4680))).
Proof.
  rewrite layout_rowsFrom, rowsFrom_allCells, cellsFrom_closed.
  change (Z.of_nat (Z.to_nat WEEKS_PER_YEAR * Z.to_nat AVERAGE_LIFESPAN_YEARS))
    with 4680.
  f_equal; f_equal; lia.
Qed.

(** X4.  Whatever [calculateWeeks] returns, the grid drawn from it is the
    full one: 90 rows, each of exactly 52 cells, whose first
    [min weeksLived 4680] cells in row-major order are past and whose other
    cells are future. *)
Theorem rendered_grid_is_90_rows_of_52
    (dob : Date) (w : World) (r : WeekModelResult) :
  fst (calculateWeeks dob w) = Returns r ->
  let grid := layout (totalWeeks r) (weeksLived r) in
  length grid = 90%nat /\
  (forall k row, nth_error grid k = Some row -> length (cells row) = 52%nat) /\
  allCells grid =
    repeat past (Z.to_nat (Z.min (weeksLived r) 4680)) ++
    repeat future (Z.to_nat (4680 - Z.min (weeksLived r) 4680)).
Proof.
  intros H grid. subst grid.
  destruct (calculateWeeks_result_shape dob w r H) as (Ht & Hpos & _).
  rewrite Ht. split; [| split].
  - pose proof (layout_length 4680 (weeksLived r)) as Hlen.
    unfold AVERAGE_LIFESPAN_YEARS, WEEKS_PER_YEAR in Hlen.
    change (Z.max 1 (Z.min 90 ((Z.max 0 4680 + 51) / 52))) with 90 in Hlen. lia.
  - intros k row Hrow. rewrite layout_rowsFrom in Hrow.
    apply rowsFrom_full_rows in Hrow; [exact Hrow | reflexivity].
  - rewrite layout_4680_cells. f_equal; f_equal; lia.
Qed.

Lemma rendered_grid_is_90_rows_of_52_witness :
  length (layout 4680 1565) = 90%nat /\
  allCells (layout 4680 1565) = repeat past 1565 ++ repeat future 3115.
Proof.
  assert (Hle : 946684800000 <= clock (blankWorld 1893456000000 "2000-01-01"))
    by discriminate.
  destruct (rendered_grid_is_90_rows_of_52 946684800000
              (blankWorld 1893456000000 "2000-01-01") _
              (calculateWeeks_returns _ _ Hle)) as (Hrows & _ & Hcells).
  split; [exact Hrows | exact Hcells].
Defined.

(** X5.  For one date of birth the week count never goes down as the clock
    advances, within the exact range of elapsed time: it is one more after
    exactly seven days, and at most one more after less than seven days. *)
Theorem weeksLived_grows_with_the_clock
    (dob : Date) (w w' : World) (r r' : WeekModelResult) :
  dob <= clock w -> clock w <= clock w' -> clock w' - dob <= MAX_SAFE ->
  fst (calculateWeeks dob w) = Returns r ->
  fst (calculateWeeks dob w') = Returns r' ->
  weeksLived r <= weeksLived r' /\
  (clock w' = clock w + 7 * 24 * 60 * 60 * 1000 ->
   weeksLived r' = weeksLived r + 1) /\
  (clock w' - clock w < 7 * 24 * 60 * 60 * 1000 ->
   weeksLived r' <= weeksLived r + 1).
Proof.
  intros Hdob Hclock Hsafe Hr Hr'.
  rewrite calculateWeeks_returns in Hr by lia.
  rewrite calculateWeeks_returns in Hr' by lia.
  injection Hr as <-. injection Hr' as <-. cbn [weeksLived].
  rewrite !num_sub_exact by lia.
  change MS_PER_WEEK with 604800000.
  change (7 * 24 * 60 * 60 * 1000) with 604800000.
  repeat split; intros; Z.to_euclidean_division_equations; lia.
Qed.

Lemma weeksLived_grows_with_the_clock_witness :
  exists r r',
    fst (calculateWeeks 0 (blankWorld 1000000000 "1970-01-01")) = Returns r /\
    fst (calculateWeeks 0 (blankWorld 1604800000 "1970-01-01")) = Returns r' /\
    weeksLived r' = weeksLived r + 1.
Proof.
  assert (H1 : 0 <= clock (blankWorld 1000000000 "1970-01-01")) by discriminate.
  assert (H2 : 0 <= clock (blankWorld 1604800000 "1970-01-01")) by discriminate.
  eexists. eexists.
  split; [exact (calculateWeeks_returns _ _ H1) |].
  split; [exact (calculateWeeks_returns _ _ H2) |].
  apply (weeksLived_grows_with_the_clock 0
           (blankWorld 1000000000 "1970-01-01")
           (blankWorld 1604800000 "1970-01-01") _ _ H1);
    [discriminate | discriminate
     | exact (calculateWeeks_returns _ _ H1)
     | exact (calculateWeeks_returns _ _ H2)
     | reflexivity].
Defined.

(** ** The submit handler, path by path *)

Section HandlerPaths.

Variable parseDate : string -> option Date.
Variable toLocaleString : Z -> string.
Variable toFixed1 : Q -> string.
Variable toISODate : Date -> string.

#[local] Abbreviation summary := (updateSummary toLocaleString toFixed1).
#[local] Abbreviation draw := (render toLocaleString toFixed1 toISODate).
#[local] Abbreviation submit :=
  (onSubmit parseDate toLocaleString toFixed1 toISODate).
#[local] Abbreviation welcome :=
  "Welcome to the world. This chart shows your journey ahead."%string.
#[local] Abbreviation too_far :=
  "That date is very far in the past. Please check your year."%string.
#[local] Abbreviation passed_90 :=
  "You've passed the 90-year mark in this model. Remaining weeks are shown as zero."%string.

Lemma clearError_fields (w : World) :
  dobErrorEl (clearError w) =
    option_map (fun _ => mkFeedback EmptyString false) (dobErrorEl w) /\
  gridEl (clearError w) = gridEl w /\
  gridEl_is_fresh (clearError w) = gridEl_is_fresh w /\
  ageEl (clearError w) = ageEl w /\
  livedEl (clearError w) = livedEl w /\
  remainingEl (clearError w) = remainingEl w /\
  console (clearError w) = console w.
Proof.
  destruct w as [c v g f a l m [e |] k]; repeat split.
Qed.

(** The handler for a date of birth that is not in the future, with the age
    tests read as tests on the elapsed milliseconds. *)
Lemma onSubmit_by_elapsed (w : World) (dob : Date) :
  dobInput_value w <> EmptyString ->
  parseDate (dobInput_value w) = Some dob ->
  dob <= clock w -> clock w - dob <= MAX_SAFE ->
  let d := clock w - dob in
  let r := mkResult 4680 (d / MS_PER_WEEK) (inject_Z d / MS_PER_YEAR)%Q in
  submit w =
  if d <? MS_NEWBORN then draw dob r (showError welcome w)
  else if MS_REASONABLE <? d then showError too_far w
  else if MS_LIFESPAN <? d then draw dob r (showError passed_90 w)
  else draw dob r (clearError w).
Proof.
  intros Hne Hparse Hle Hsafe d r. subst d r.
  rewrite (onSubmit_parsed parseDate toLocaleString toFixed1 toISODate
             w dob Hne Hparse).
  rewrite (calculateWeeks_returns dob w Hle). cbn [yearsLived].
  rewrite num_sub_exact by lia.
  rewrite yearsLived_newborn, yearsLived_over_reasonable,
    yearsLived_over_lifespan.
  reflexivity.
Qed.

(** X6.  An empty input is answered with the request to enter a date and
    nothing else: the grid, its class, the three statistics and the console
    stay as they were, whatever the clock and the parser; without a
    [#dob-error] element the whole page stays as it was. *)
Theorem onSubmit_empty_input (w : World) :
  dobInput_value w = EmptyString ->
  submit w = showError "Please enter your date of birth." w /\
  dobErrorEl (submit w) =
    option_map (fun _ => mkFeedback "Please enter your date of birth." true)
               (dobErrorEl w) /\
  gridEl (submit w) = gridEl w /\
  gridEl_is_fresh (submit w) = gridEl_is_fresh w /\
  ageEl (submit w) = ageEl w /\
  livedEl (submit w) = livedEl w /\
  remainingEl (submit w) = remainingEl w /\
  console (submit w) = console w /\
  (dobErrorEl w = None -> submit w = w).
Proof.
  intros H.
  assert (E : submit w = showError "Please enter your date of birth." w).
  { unfold onSubmit. rewrite H. reflexivity. }
  rewrite E. split; [reflexivity |].
  pose proof (showError_fields "Please enter your date of birth." w)
    as (He & Hg & Hf & Ha & Hl & Hm & Hk).
  repeat split; try assumption.
  intros Hnone. unfold showError. now rewrite Hnone.
Qed.

(** X7.  An input that does not parse to a date is answered with the
    invalid-date message and nothing else: the grid, its class, the three
    statistics and the console stay as they were; without a [#dob-error]
    element the whole page stays as it was. *)
Theorem onSubmit_invalid_date (w : World) :
  dobInput_value w <> EmptyString ->
  parseDate (dobInput_value w) = None ->
  submit w =
    showError "That doesn't look like a valid date. Please try again." w /\
  dobErrorEl (submit w) =
    option_map
      (fun _ => mkFeedback
         "That doesn't look like a valid date. Please try again." true)
      (dobErrorEl w) /\
  gridEl (submit w) = gridEl w /\
  gridEl_is_fresh (submit w) = gridEl_is_fresh w /\
  ageEl (submit w) = ageEl w /\
  livedEl (submit w) = livedEl w /\
  remainingEl (submit w) = remainingEl w /\
  console (submit w) = console w /\
  (dobErrorEl w = None -> submit w = w).
Proof.
  intros Hne Hparse.
  assert (E : submit w =
    showError "That doesn't look like a valid date. Please try again." w).
  { unfold onSubmit. apply String.eqb_neq in Hne. rewrite Hne, Hparse.
    reflexivity. }
  rewrite E. split; [reflexivity |].
  pose proof (showError_fields
    "That doesn't look like a valid date. Please try again." w)
    as (He & Hg & Hf & Ha & Hl & Hm & Hk).
  repeat split; try assumption.
  intros Hnone. unfold showError. now rewrite Hnone.
Qed.

(** X8.  For a date of birth that parses and is not in the future (and at
    most 2^53 ms back), the path of the handler is decided by the elapsed
    milliseconds [d]: below 3155760000 (0.1 year) the welcome notice and a
    rendering; up to 2840184000000 (90 years) inclusive a cleared message
    and a rendering; above that and up to 3471336000000 (110 years)
    inclusive the 90-year notice and a rendering; above 110 years the
    check-your-year message and no rendering. *)
Theorem onSubmit_paths_by_elapsed_time (w : World) (dob : Date) :
  dobInput_value w <> EmptyString ->
  parseDate (dobInput_value w) = Some dob ->
  dob <= clock w -> clock w - dob <= MAX_SAFE ->
  let d := clock w - dob in
  let r := mkResult 4680 (d / MS_PER_WEEK) (inject_Z d / MS_PER_YEAR)%Q in
  (d < 3155760000 -> submit w = draw dob r (showError welcome w)) /\
  (3155760000 <= d <= 2840184000000 -> submit w = draw dob r (clearError w)) /\
  (2840184000000 < d <= 3471336000000 ->
   submit w = draw dob r (showError passed_90 w)) /\
  (3471336000000 < d -> submit w = showError too_far w).
Proof.
  intros Hne Hparse Hle Hsafe d r.
  pose proof (onSubmit_by_elapsed w dob Hne Hparse Hle Hsafe) as E.
  cbv zeta in E. fold d in E. fold r in E.
  unfold MS_NEWBORN, MS_REASONABLE, MS_LIFESPAN in E.
  destruct (Z.ltb_spec d 3155760000);
    destruct (Z.ltb_spec 3471336000000 d);
    destruct (Z.ltb_spec 2840184000000 d);
    repeat split; intros; try lia; exact E.
Qed.

(** X9.  The 90-year notice says what the page shows: whenever the handler
    takes that path (more than 90 and at most 110 years elapsed), the
    remaining count is the formatted zero and every one of the 4680 cells of
    the grid is past. *)
Theorem passed_90_notice_shows_zero_remaining (w : World) (dob : Date) :
  dobInput_value w <> EmptyString ->
  parseDate (dobInput_value w) = Some dob ->
  2840184000000 < clock w - dob <= 3471336000000 ->
  dobErrorEl (submit w) =
    option_map (fun _ => mkFeedback passed_90 true) (dobErrorEl w) /\
  remainingEl (submit w) =
    option_map (fun _ => toLocaleString 0) (remainingEl w) /\
  allCells (gridEl (submit w)) = repeat past 4680 /\
  length (gridEl (submit w)) = 90%nat.
Proof.
  intros Hne Hparse Hd.
  assert (Hle : dob <= clock w) by lia.
  assert (Hsafe : clock w - dob <= MAX_SAFE) by (unfold MAX_SAFE; lia).
  rewrite (onSubmit_by_elapsed w dob Hne Hparse Hle Hsafe).
  unfold MS_NEWBORN, MS_REASONABLE, MS_LIFESPAN.
  destruct (Z.ltb_spec (clock w - dob) 3155760000); [lia |].
  destruct (Z.ltb_spec 3471336000000 (clock w - dob)); [lia |].
  destruct (Z.ltb_spec 2840184000000 (clock w - dob)); [| lia].
  set (r := mkResult _ _ _). set (w1 := showError _ w).
  pose proof (render_fields toLocaleString toFixed1 toISODate dob r w1)
    as (Hg & _ & _ & _ & Hm & He).
  pose proof (showError_fields passed_90 w) as (He' & _ & _ & _ & _ & Hm' & _).
  fold w1 in He', Hm'.
  assert (Hweeks : 4680 <= weeksLived r).
  { subst r. cbn [weeksLived]. change MS_PER_WEEK with 604800000.
    Z.to_euclidean_division_equations. lia. }
  rewrite He, He', Hm, Hm', Hg.
  split; [reflexivity | split; [| split]].
  - assert (Hzero : Z.max 0 (num_sub (totalWeeks r) (weeksLived r)) = 0).
    { pose proof (proj2 (round_to_double_sign (totalWeeks r - weeksLived r))).
      unfold num_sub. subst r. cbn [totalWeeks weeksLived] in *. lia. }
    now rewrite Hzero.
  - subst r. cbn [totalWeeks weeksLived] in *. rewrite layout_4680_cells.
    replace (Z.to_nat (Z.min _ 4680)) with 4680%nat by lia.
    replace (Z.to_nat (4680 - _)) with 0%nat by lia.
    cbn [repeat]. now rewrite app_nil_r.
  - subst r. cbn [totalWeeks weeksLived].
    pose proof (layout_length 4680 ((clock w - dob) / MS_PER_WEEK)) as Hlen.
    unfold AVERAGE_LIFESPAN_YEARS, WEEKS_PER_YEAR in Hlen.
    change (Z.max 1 (Z.min 90 ((Z.max 0 4680 + 51) / 52))) with 90 in Hlen. lia.
Qed.

(** X10.  Between 4680 full weeks and 90 years of elapsed time (from
    2830464000000 to 2840184000000 ms) the page shows no weeks left without
    any notice: the message is cleared, the remaining count is the formatted
    zero and all 4680 cells are past. *)
Theorem no_weeks_left_before_the_notice (w : World) (dob : Date) :
  dobInput_value w <> EmptyString ->
  parseDate (dobInput_value w) = Some dob ->
  2830464000000 <= clock w - dob <= 2840184000000 ->
  dobErrorEl (submit w) =
    option_map (fun _ => mkFeedback EmptyString false) (dobErrorEl w) /\
  remainingEl (submit w) =
    option_map (fun _ => toLocaleString 0) (remainingEl w) /\
  allCells (gridEl (submit w)) = repeat past 4680.
Proof.
  intros Hne Hparse Hd.
  assert (Hle : dob <= clock w) by lia.
  assert (Hsafe : clock w - dob <= MAX_SAFE) by (unfold MAX_SAFE; lia).
  rewrite (onSubmit_by_elapsed w dob Hne Hparse Hle Hsafe).
  unfold MS_NEWBORN, MS_REASONABLE, MS_LIFESPAN.
  destruct (Z.ltb_spec (clock w - dob) 3155760000); [lia |].
  destruct (Z.ltb_spec 3471336000000 (clock w - dob)); [lia |].
  destruct (Z.ltb_spec 2840184000000 (clock w - dob)); [lia |].
  set (r := mkResult _ _ _). set (w1 := clearError w).
  pose proof (render_fields toLocaleString toFixed1 toISODate dob r w1)
    as (Hg & _ & _ & _ & Hm & He).
  pose proof (clearError_fields w) as (He' & _ & _ & _ & _ & Hm' & _).
  fold w1 in He', Hm'.
  assert (Hweeks : 4680 <= weeksLived r).
  { subst r. cbn [weeksLived]. change MS_PER_WEEK with 604800000.
    Z.to_euclidean_division_equations. lia. }
  rewrite He, He', Hm, Hm', Hg.
  split; [reflexivity | split].
  - assert (Hzero : Z.max 0 (num_sub (totalWeeks r) (weeksLived r)) = 0).
    { pose proof (proj2 (round_to_double_sign (totalWeeks r - weeksLived r))).
      unfold num_sub. subst r. cbn [totalWeeks weeksLived] in *. lia. }
    now rewrite Hzero.
  - subst r. cbn [totalWeeks weeksLived] in *. rewrite layout_4680_cells.
    replace (Z.to_nat (Z.min _ 4680)) with 4680%nat by lia.
    replace (Z.to_nat (4680 - _)) with 0%nat by lia.
    cbn [repeat]. now rewrite app_nil_r.
Qed.

Lemma onSubmit_empty (w : World) :
  dobInput_value w = EmptyString ->
  submit w = showError "Please enter your date of birth." w.
Proof. intros H. unfold onSubmit. now rewrite H. Qed.

Lemma onSubmit_unparsed (w : World) :
  dobInput_value w <> EmptyString ->
  parseDate (dobInput_value w) = None ->
  submit w =
  showError "That doesn't look like a valid date. Please try again." w.
Proof.
  intros Hne Hparse. unfold onSubmit.
  apply String.eqb_neq in Hne. now rewrite Hne, Hparse.
Qed.

Lemma showError_frame (msg : string) (w : World) :
  clock (showError msg w) = clock w /\
  dobInput_value (showError msg w) = dobInput_value w.
Proof. destruct w as [c v g f a l m [e |] k]; split; reflexivity. Qed.

Lemma clearError_frame (w : World) :
  clock (clearError w) = clock w /\
  dobInput_value (clearError w) = dobInput_value w.
Proof. destruct w as [c v g f a l m [e |] k]; split; reflexivity. Qed.

Lemma render_frame (dob : Date) (r : WeekModelResult) (w : World) :
  clock (draw dob r w) = clock w /\
  dobInput_value (draw dob r w) = dobInput_value w /\
  console (draw dob r w) =
    console w ++ [log_text "DOB:" (toISODate dob);
                  log_number "Total weeks (90 years):" (totalWeeks r);
                  log_number "Weeks lived so far:" (weeksLived r)].
Proof.
  destruct w as [c v g f [a |] [l |] [m |] e k]; cbn;
    rewrite <- ?app_assoc; repeat split.
Qed.

Lemma calculateWeeks_clock (dob : Date) (w w' : World) :
  clock w' = clock w ->
  fst (calculateWeeks dob w') = fst (calculateWeeks dob w).
Proof.
  intros H. unfold calculateWeeks. rewrite H.
  now destruct (clock w <? dob).
Qed.

(** The handler is its decision, acted on the page. *)
Lemma onSubmit_decision (w : World) :
  submit w = act toLocaleString toFixed1 toISODate (decision parseDate w) w.
Proof.
  unfold decision.
  destruct (String.eqb_spec (dobInput_value w) EmptyString) as [E | NE].
  - apply (onSubmit_empty w E).
  - destruct (parseDate (dobInput_value w)) as [dob |] eqn:P.
    + rewrite (onSubmit_parsed parseDate toLocaleString toFixed1 toISODate
                 w dob NE P).
      destruct (fst (calculateWeeks dob w)) as [r | e]; [| reflexivity].
      destruct (Qltb (yearsLived r) (1 # 10)); [reflexivity |].
      destruct (Qltb (inject_Z MAX_REASONABLE_AGE_YEARS) (yearsLived r));
        [reflexivity |].
      destruct (Qltb (inject_Z AVERAGE_LIFESPAN_YEARS) (yearsLived r));
        reflexivity.
    + apply (onSubmit_unparsed w NE P).
Qed.

Lemma act_clock_input (d : Decision) (w : World) :
  clock (act toLocaleString toFixed1 toISODate d w) = clock w /\
  dobInput_value (act toLocaleString toFixed1 toISODate d w) = dobInput_value w.
Proof.
  destruct d as [msg | msg | dob r msg | dob r]; cbn [act].
  - apply showError_frame.
  - split; reflexivity.
  - destruct (render_frame dob r (showError msg w)) as (-> & -> & _).
    apply showError_frame.
  - destruct (render_frame dob r (clearError w)) as (-> & -> & _).
    apply clearError_frame.
Qed.

(** The decision reads the input and the clock only. *)
Lemma decision_reads_input_and_clock (w w' : World) :
  clock w' = clock w -> dobInput_value w' = dobInput_value w ->
  decision parseDate w' = decision parseDate w.
Proof.
  intros Hc Hv. unfold decision. rewrite Hv.
  destruct (String.eqb (dobInput_value w) EmptyString); [reflexivity |].
  destruct (parseDate (dobInput_value w)) as [dob |]; [| reflexivity].
  now rewrite (calculateWeeks_clock dob w w' Hc).
Qed.

Lemma page_act_twice (d : Decision) (w : World) :
  page (act toLocaleString toFixed1 toISODate d
          (act toLocaleString toFixed1 toISODate d w)) =
  page (act toLocaleString toFixed1 toISODate d w).
Proof.
  destruct d as [msg | msg | dob r msg | dob r]; cbn [act].
  - destruct w as [c v g f a l m [e |] k]; reflexivity.
  - reflexivity.
  - pose proof (render_fields toLocaleString toFixed1 toISODate dob r
                  (showError msg (draw dob r (showError msg w))))
      as (Hg & Hf & Ha & Hl & Hm & He).
    pose proof (showError_fields msg (draw dob r (showError msg w)))
      as (He2 & _ & _ & Ha2 & Hl2 & Hm2 & _).
    pose proof (render_fields toLocaleString toFixed1 toISODate dob r
                  (showError msg w)) as (Hg1 & Hf1 & Ha1 & Hl1 & Hm1 & He1).
    pose proof (showError_fields msg w) as (He0 & _ & _ & Ha0 & Hl0 & Hm0 & _).
    unfold page.
    rewrite Hg, Hf, Ha, Hl, Hm, He, He2, Ha2, Hl2, Hm2.
    rewrite Hg1, Hf1, Ha1, Hl1, Hm1, He1, He0, Ha0, Hl0, Hm0.
    destruct (ageEl w), (livedEl w), (remainingEl w), (dobErrorEl w);
      reflexivity.
  - pose proof (render_fields toLocaleString toFixed1 toISODate dob r
                  (clearError (draw dob r (clearError w))))
      as (Hg & Hf & Ha & Hl & Hm & He).
    pose proof (clearError_fields (draw dob r (clearError w)))
      as (He2 & _ & _ & Ha2 & Hl2 & Hm2 & _).
    pose proof (render_fields toLocaleString toFixed1 toISODate dob r
                  (clearError w)) as (Hg1 & Hf1 & Ha1 & Hl1 & Hm1 & He1).
    pose proof (clearError_fields w) as (He0 & _ & _ & Ha0 & Hl0 & Hm0 & _).
    unfold page.
    rewrite Hg, Hf, Ha, Hl, Hm, He, He2, Ha2, Hl2, Hm2.
    rewrite Hg1, Hf1, Ha1, Hl1, Hm1, He1, He0, Ha0, Hl0, Hm0.
    destruct (ageEl w), (livedEl w), (remainingEl w), (dobErrorEl w);
      reflexivity.
Qed.

(** X11.  Whatever its path, the handler leaves the clock and the input as
    they are, neither adds nor removes one of the optional elements, and only
    appends to the console: nothing, one warning or three log lines. *)
Theorem onSubmit_frame (w : World) :
  clock (submit w) = clock w /\
  dobInput_value (submit w) = dobInput_value w /\
  (ageEl (submit w) = None <-> ageEl w = None) /\
  (livedEl (submit w) = None <-> livedEl w = None) /\
  (remainingEl (submit w) = None <-> remainingEl w = None) /\
  (dobErrorEl (submit w) = None <-> dobErrorEl w = None) /\
  exists entries,
    console (submit w) = console w ++ entries /\ (length entries <= 3)%nat.
Proof.
  rewrite (onSubmit_decision w).
  destruct (act_clock_input (decision parseDate w) w) as [Hc Hv].
  split; [exact Hc | split; [exact Hv |]].
  destruct (decision parseDate w) as [msg | msg | dob r msg | dob r];
    cbn [act].
  - pose proof (showError_fields msg w) as (He & _ & _ & Ha & Hl & Hm & Hk).
    rewrite He, Ha, Hl, Hm, Hk.
    repeat split; try tauto;
      try (destruct (dobErrorEl w); [discriminate | reflexivity]).
    exists []. rewrite app_nil_r. split; [reflexivity | cbn; lia].
  - cbn [ageEl livedEl remainingEl dobErrorEl console console_push].
    repeat split; try tauto.
    eexists. split; [reflexivity | cbn; lia].
  - pose proof (render_fields toLocaleString toFixed1 toISODate dob r
                  (showError msg w)) as (_ & _ & Ha & Hl & Hm & He).
    pose proof (render_frame dob r (showError msg w)) as (_ & _ & Hk).
    pose proof (showError_fields msg w) as (He' & _ & _ & Ha' & Hl' & Hm' & Hk').
    rewrite Ha, Hl, Hm, He, Hk, He', Ha', Hl', Hm', Hk'.
    repeat split;
      try (destruct (ageEl w); [discriminate | reflexivity]);
      try (destruct (livedEl w); [discriminate | reflexivity]);
      try (destruct (remainingEl w); [discriminate | reflexivity]);
      try (destruct (dobErrorEl w); [discriminate | reflexivity]).
    eexists. split; [reflexivity | cbn; lia].
  - pose proof (render_fields toLocaleString toFixed1 toISODate dob r
                  (clearError w)) as (_ & _ & Ha & Hl & Hm & He).
    pose proof (render_frame dob r (clearError w)) as (_ & _ & Hk).
    pose proof (clearError_fields w) as (He' & _ & _ & Ha' & Hl' & Hm' & Hk').
    rewrite Ha, Hl, Hm, He, Hk, He', Ha', Hl', Hm', Hk'.
    repeat split;
      try (destruct (ageEl w); [discriminate | reflexivity]);
      try (destruct (livedEl w); [discriminate | reflexivity]);
      try (destruct (remainingEl w); [discriminate | reflexivity]);
      try (destruct (dobErrorEl w); [discriminate | reflexivity]).
    eexists. split; [reflexivity | cbn; lia].
Qed.

(** X12.  Submitting again, with the same input at the same clock reading,
    changes nothing a visitor sees: the grid, its class, the statistics and
    the message after the second submission are those after the first. *)
Theorem onSubmit_twice_shows_the_same (w : World) :
  page (submit (submit w)) = page (submit w).
Proof.
  rewrite (onSubmit_decision (submit w)).
  assert (E : decision parseDate (submit w) = decision parseDate w).
  { rewrite (onSubmit_decision w).
    apply decision_reads_input_and_clock; apply act_clock_input. }
  rewrite E, (onSubmit_decision w). apply page_act_twice.
Qed.

(** X13.  [updateSummary] writes over what the statistics showed: after two
    results the three statistics show the later one (its years to one
    decimal, its weeks lived, and its remaining weeks floored at zero), as
    after the later call alone, and the grid, its class, the message and the
    console are not touched.  A statistic whose element is missing is
    skipped, and with none of the three elements the world is left as it
    is. *)
Theorem updateSummary_overwrites (r1 r2 : WeekModelResult) (w : World) :
  summary r2 (summary r1 w) = summary r2 w /\
  ageEl (summary r2 (summary r1 w)) =
    option_map (fun _ => toFixed1 (yearsLived r2)) (ageEl w) /\
  livedEl (summary r2 (summary r1 w)) =
    option_map (fun _ => toLocaleString (weeksLived r2)) (livedEl w) /\
  remainingEl (summary r2 (summary r1 w)) =
    option_map (fun _ => toLocaleString
                  (Z.max 0 (num_sub (totalWeeks r2) (weeksLived r2))))
               (remainingEl w) /\
  gridEl (summary r2 (summary r1 w)) = gridEl w /\
  gridEl_is_fresh (summary r2 (summary r1 w)) = gridEl_is_fresh w /\
  dobErrorEl (summary r2 (summary r1 w)) = dobErrorEl w /\
  console (summary r2 (summary r1 w)) = console w /\
  (ageEl w = None -> livedEl w = None -> remainingEl w = None ->
   summary r2 w = w).
Proof.
  destruct w as [c v g f [a |] [l |] [m |] e k];
    repeat split; intros; try discriminate; reflexivity.
Qed.

End HandlerPaths.

Lemma onSubmit_empty_input_witness :
  onSubmit (parseAs 0) decimalString noText noText
           (set_gridEl (layout 104 60) (blankWorld 1000 "")) =
  showError "Please enter your date of birth."
            (set_gridEl (layout 104 60) (blankWorld 1000 "")).
Proof.
  apply (onSubmit_empty_input (parseAs 0) decimalString noText noText
           (set_gridEl (layout 104 60) (blankWorld 1000 ""))).
  reflexivity.
Defined.

Lemma onSubmit_invalid_date_witness :
  gridEl (onSubmit (fun _ => None) decimalString noText noText
            (set_gridEl (layout 104 60) (blankWorld 1000 "31/31/1990")))
  = layout 104 60.
Proof.
  destruct (onSubmit_invalid_date (fun _ => None) decimalString noText noText
              (set_gridEl (layout 104 60) (blankWorld 1000 "31/31/1990")))
    as (_ & _ & H & _).
  - discriminate.
  - reflexivity.
  - exact H.
Defined.

Lemma onSubmit_paths_by_elapsed_time_witness :
  onSubmit (parseAs 946684800000) decimalString noText noText
           (blankWorld 1893456000000 "2000-01-01") =
  render decimalString noText noText 946684800000
         (mkResult 4680 ((1893456000000 - 946684800000) / MS_PER_WEEK)
                   (inject_Z (1893456000000 - 946684800000) / MS_PER_YEAR)%Q)
         (clearError (blankWorld 1893456000000 "2000-01-01")).
Proof.
  destruct (onSubmit_paths_by_elapsed_time
              (parseAs 946684800000) decimalString noText noText
              (blankWorld 1893456000000 "2000-01-01") 946684800000)
    as (_ & H & _).
  - discriminate.
  - reflexivity.
  - discriminate.
  - discriminate.
  - apply H. split; discriminate.
Defined.

Lemma passed_90_notice_shows_zero_remaining_witness :
  remainingEl (onSubmit (parseAs 0) decimalString noText noText
                 (blankWorld 2997972000000 "1970-01-01")) = Some "0"%string.
Proof.
  destruct (passed_90_notice_shows_zero_remaining
              (parseAs 0) decimalString noText noText
              (blankWorld 2997972000000 "1970-01-01") 0)
    as (_ & H & _).
  - discriminate.
  - reflexivity.
  - split; [reflexivity | discriminate].
  - exact H.
Defined.

Lemma no_weeks_left_before_the_notice_witness :
  dobErrorEl (onSubmit (parseAs 0) decimalString noText noText
                (blankWorld 2835000000000 "1970-01-01"))
    = Some (mkFeedback EmptyString false) /\
  remainingEl (onSubmit (parseAs 0) decimalString noText noText
                 (blankWorld 2835000000000 "1970-01-01")) = Some "0"%string.
Proof.
  destruct (no_weeks_left_before_the_notice
              (parseAs 0) decimalString noText noText
              (blankWorld 2835000000000 "1970-01-01") 0)
    as (He & Hm & _).
  - discriminate.
  - reflexivity.
  - split; discriminate.
  - split; [exact He | exact Hm].
Defined.

(** ** The start of the script *)

Lemma userSwitches_without_listener (b : bool) (d : Document) :
  change_listener d = false ->
  change_listener (userSwitches b d) = false /\
  reflectionText (userSwitches b d) = reflectionText d.
Proof.
  intros H. unfold userSwitches. cbn [change_listener set_checked].
  rewrite H. split; [exact H | reflexivity].
Qed.

(** X14.  Without the form, the date input or the grid the script does
    nothing at all: the document is left as it is (no listener, no copyright
    year, the reflection text untouched), and the switch then never shows or
    hides the reflection text however often it is used. *)
Theorem start_needs_form_input_and_grid
    (currentYear : Z) (d : Document) (switches : list bool) :
  has_form d && has_dobInput d && has_gridEl d = false ->
  change_listener d = false ->
  start currentYear d = d /\
  reflectionText
    (fold_left (fun doc b => userSwitches b doc) switches (start currentYear d))
  = reflectionText d.
Proof.
  intros Hmiss Hfresh.
  assert (E : start currentYear d = d).
  { unfold start.
    destruct (has_form d), (has_dobInput d), (has_gridEl d);
      try reflexivity; discriminate. }
  rewrite E. split; [reflexivity |].
  clear Hmiss E. revert d Hfresh.
  induction switches as [| b bs IH]; intros d Hfresh; [reflexivity |].
  cbn [fold_left].
  destruct (userSwitches_without_listener b d Hfresh) as [Hl Ht].
  rewrite (IH _ Hl). exact Ht.
Qed.

Lemma start_needs_form_input_and_grid_witness :
  start 2026 (mkDocument true true false (Some true) (Some "none"%string)
                         (Some EmptyString) false false)
  = mkDocument true true false (Some true) (Some "none"%string)
               (Some EmptyString) false false.
Proof.
  apply (start_needs_form_input_and_grid 2026
           (mkDocument true true false (Some true) (Some "none"%string)
                       (Some EmptyString) false false)
           [false; true]); reflexivity.
Defined.

Lemma last_after_cons {A : Type} (l : list A) :
  forall a d : A, last (a :: l) d = last l a.
Proof.
  induction l as [| a' l IH]; intros a d; [reflexivity |].
  change (last (a :: a' :: l) d) with (last (a' :: l) d).
  now rewrite (IH a' d), (IH a' a).
Qed.

(** The switch and the text agree, and the listener is there to keep it
    so. *)
Lemma userSwitches_in_step (b b0 : bool) (d : Document) :
  change_listener d = true ->
  reflectionToggle d = Some b0 ->
  reflectionText d = Some (displayFor b0) ->
  change_listener (userSwitches b d) = true /\
  reflectionToggle (userSwitches b d) = Some b /\
  reflectionText (userSwitches b d) = Some (displayFor b).
Proof.
  intros Hl Ht Hx. destruct d as [hf hd hg t x c l s].
  cbn in Hl, Ht, Hx. subst l t x. repeat split.
Qed.

(** X15.  With the three needed elements, the switch and the reflection text
    on the page, the text is shown exactly when the switch is on: its
    [display] is [block] for a checked switch and [none] otherwise, right
    after the start and after any sequence of uses of the switch. *)
Theorem reflection_text_follows_the_switch
    (currentYear : Z) (d : Document) (checked : bool) (display : string)
    (switches : list bool) :
  has_form d && has_dobInput d && has_gridEl d = true ->
  reflectionToggle d = Some checked ->
  reflectionText d = Some display ->
  let d' := fold_left (fun doc b => userSwitches b doc) switches
                      (start currentYear d) in
  reflectionToggle d' = Some (last switches checked) /\
  reflectionText d' = Some (displayFor (last switches checked)).
Proof.
  intros Hall Ht Hx d'. subst d'.
  assert (Hstart : change_listener (start currentYear d) = true /\
                   reflectionToggle (start currentYear d) = Some checked /\
                   reflectionText (start currentYear d)
                     = Some (displayFor checked)).
  { destruct d as [[|] [|] [|] t x [c |] l s]; try discriminate;
      cbn in Ht, Hx; subst t x; repeat split. }
  revert Hstart. generalize (start currentYear d) as doc. clear.
  revert checked.
  induction switches as [| b bs IH]; intros checked doc (Hl & Ht & Hx).
  - split; assumption.
  - cbn [fold_left].
    destruct (userSwitches_in_step b checked doc Hl Ht Hx) as (Hl' & Ht' & Hx').
    destruct (IH b _ (conj Hl' (conj Ht' Hx'))) as [H1 H2].
    rewrite last_after_cons. split; assumption.
Qed.

Lemma reflection_text_follows_the_switch_witness :
  reflectionText
    (fold_left (fun doc b => userSwitches b doc) [true; false; true]
       (start 2026 (mkDocument true true true (Some false) (Some EmptyString)
                               None false false)))
  = Some "block"%string.
Proof.
  apply (reflection_text_follows_the_switch 2026
           (mkDocument true true true (Some false) (Some EmptyString)
                       None false false)
           false EmptyString [true; false; true]); reflexivity.
Defined.
